(** * SimpleFpCalc: the calculation engine of [fpcalc.py]

    A shallow embedding of the six functions of [fpcalc.py] and the
    properties of the engine's specification, followed by the script
    that calls them ([app.py]: widget values, the cached SDS, the results
    section) and the sign-in logic of [auth.py].  What those two files
    do outside themselves (remote calls, buttons) is an input of the
    model.

    Modelling conventions.
    - Python numbers (the [int]s and [float]s the engine receives) are
      real numbers: arithmetic is exact.  Rounding, overflow, infinities
      and NaN are not modelled.
    - Python exceptions are explicit: every operation that can raise
      returns a [result], and [try]/[except] is a handler on it.
    - A table is a list of rows as [json.load] yields them: each row is a
      dictionary from field labels to JSON scalars.
    - Python strings are strings of code points below 256. *)

From Stdlib Require Import Ascii String Reals Lra.
From stdpp Require Import base option list strings gmap.

(** ** Exceptions *)

Inductive exn : Set :=
| ZeroDivisionError
| ValueError
| IndexError
| KeyError
| AttributeError
| TypeError.

Inductive result (A : Type) : Type :=
| Ok (a : A)
| Raise (e : exn).
Arguments Ok {A} a.
Arguments Raise {A} e.

#[global] Instance result_ret : MRet result := @Ok.

#[global] Instance result_bind : MBind result := fun A B k m =>
  match m with
  | Ok a => k a
  | Raise e => Raise e
  end.

#[global] Instance exn_eq_dec : EqDecision exn.
Proof. solve_decision. Defined.

(** [try: body except e: handler]. *)
Definition try_except {A : Type} (body : result A) (e : exn) (handler : result A)
  : result A :=
  match body with
  | Ok a => Ok a
  | Raise e' => if decide (e' = e) then handler else Raise e'
  end.

(** ** Strings: [str.strip] and [str.lower] *)

Module PyStr.

(** [str.isspace] on one code point below 256. *)
Definition isspace (c : ascii) : bool :=
  let n := nat_of_ascii c in
  ((9 <=? n) && (n <=? 13)) || ((28 <=? n) && (n <=? 32))
  || (n =? 133) || (n =? 160).

(** [str.lower] on one code point below 256: A-Z and the Latin-1
    capitals (all of C0-DE but the multiplication sign D7). *)
Definition lower_char (c : ascii) : ascii :=
  let n := nat_of_ascii c in
  if ((65 <=? n) && (n <=? 90))
     || ((192 <=? n) && (n <=? 222) && negb (n =? 215))
  then ascii_of_nat (n + 32) else c.

Fixpoint lower (s : string) : string :=
  match s with
  | EmptyString => EmptyString
  | String c s' => String (lower_char c) (lower s')
  end.

Fixpoint lstrip (s : string) : string :=
  match s with
  | EmptyString => EmptyString
  | String c s' => if isspace c then lstrip s' else s
  end.

Fixpoint rstrip (s : string) : string :=
  match s with
  | EmptyString => EmptyString
  | String c s' =>
      match rstrip s' with
      | EmptyString => if isspace c then EmptyString else String c EmptyString
      | r => String c r
      end
  end.

Definition strip (s : string) : string := rstrip (lstrip s).

(** The form under which the lookups compare names:
    [s.strip().lower()]. *)
Definition normalize (s : string) : string := lower (strip s).

End PyStr.

(** ** Table values and rows *)

(** A JSON scalar. *)
Inductive pyval : Type :=
| VNone
| VBool (b : bool)
| VNum (r : R)
| VStr (s : string).

Abbreviation row := (gmap string pyval).

(** [row[k]]. *)
Definition getitem (r : row) (k : string) : result pyval :=
  match r !! k with
  | Some v => Ok v
  | None => Raise KeyError
  end.

(** [k in row]. *)
Definition contains (r : row) (k : string) : bool :=
  match r !! k with
  | Some _ => true
  | None => false
  end.

(** [table[0]]. *)
Definition first_row (t : list row) : result row :=
  match t with
  | [] => Raise IndexError
  | r :: _ => Ok r
  end.

(** [v.strip().lower()]: only a string has the method. *)
Definition strip_lower (v : pyval) : result string :=
  match v with
  | VStr s => Ok (PyStr.normalize s)
  | _ => Raise AttributeError
  end.

(** Truth value of a JSON scalar. *)
Definition truthy (v : pyval) : bool :=
  match v with
  | VNone => false
  | VBool b => b
  | VNum r => if Req_dec_T r 0%R then false else true
  | VStr s => negb (String.eqb s "")
  end.

(** [v or d]. *)
Definition py_or (v d : pyval) : pyval := if truthy v then v else d.

(** ** Building parameters: the table lookups *)

(** The body of [for row in sfrs_data]. *)
Fixpoint sfrs_loop (rows : list row) (selected_sfrs : string)
  : result (pyval * pyval) :=
  match rows with
  | [] => Ok (VNum 1, VNum 1)
  | r :: rest =>
      name ← getitem r "SFRS" ≫= strip_lower;
      if String.eqb name (PyStr.normalize selected_sfrs) then
        vR ← getitem r "R";
        vOmega ← getitem r "Omega";
        Ok (vR, vOmega)
      else sfrs_loop rest selected_sfrs
  end.

Definition get_sfrs_factors (sfrs_data : list row) (selected_sfrs : option string)
  : result (pyval * pyval) :=
  match selected_sfrs with
  | None => Ok (VNone, VNone)
  | Some s => sfrs_loop sfrs_data s
  end.

(** The body of [for row in component_data], with [key] already chosen. *)
Fixpoint component_loop (key : string) (rows : list row)
    (component_name location : string) : result (pyval * pyval) :=
  match rows with
  | [] => Ok (VNum 1, VNum 1)
  | r :: rest =>
      name ← getitem r key ≫= strip_lower;
      if String.eqb name (PyStr.normalize component_name) then
        car ← (if String.eqb location "Supported Above Grade"
               then getitem r "CAR_above" else getitem r "CAR_below");
        rpo ← getitem r "Rpo";
        Ok (py_or car (VNum 1), py_or rpo (VNum 1.5))
      else component_loop key rest component_name location
  end.

Definition get_component_factors (component_data : list row)
    (component_name : option string) (location : string)
  : result (pyval * pyval) :=
  match component_name with
  | None => Ok (VNum 1, VNum 1)
  | Some name =>
      r0 ← first_row component_data;
      let key := if contains r0 "Component" then "Component" else "Components" in
      component_loop key component_data name location
  end.

Section Period.

(** [hn ** x] and [Ct * p] on table values are the interpreter's own
    operators; the period lookup is stated for any behaviour of them. *)
Variable py_pow : R -> pyval -> result pyval.
Variable py_mul : pyval -> pyval -> result pyval.

(** The body of [for row in period_data]. *)
Fixpoint ta_loop (rows : list row) (structure_type : string) (hn : R)
  : result (pyval * pyval * pyval) :=
  match rows with
  | [] => Ok (VNone, VNone, VNone)
  | r :: rest =>
      name ← getitem r "Structure Type " ≫= strip_lower;
      if String.eqb name (PyStr.normalize structure_type) then
        Ct ← getitem r "Ct";
        x ← getitem r "x";
        p ← py_pow hn x;
        Ta ← py_mul Ct p;
        Ok (Ta, Ct, x)
      else ta_loop rest structure_type hn
  end.

Definition calculate_ta (period_data : list row)
    (structure_type : option string) (hn : R)
  : result (pyval * pyval * pyval) :=
  match structure_type with
  | None => Ok (VNone, VNone, VNone)
  | Some s => ta_loop period_data s hn
  end.

End Period.

(** ** Component parameters: the formulas *)

#[global] Instance Rlt_decision (x y : R) : Decision (x < y)%R := Rlt_dec x y.
#[global] Instance Rle_decision (x y : R) : Decision (x <= y)%R := Rle_dec x y.
#[global] Instance Req_decision : EqDecision R := Req_dec_T.

Local Open Scope R_scope.

(** [a / b]. *)
Definition py_div (a b : R) : result R :=
  if decide (b = 0) then Raise ZeroDivisionError else Ok (a / b).

(** [math.sqrt(x)]. *)
Definition py_sqrt (x : R) : result R :=
  if decide (x < 0) then Raise ValueError else Ok (sqrt x).

(** The builtins [max(a, b)] and [min(a, b)]: the first argument stays
    unless the second is strictly beyond it. *)
Definition py_max (a b : R) : R := if decide (a < b) then b else a.
Definition py_min (a b : R) : R := if decide (b < a) then b else a.

(** What [calculate_hf] hands back: a bare number or a 3-tuple. *)
Inductive hf_result : Type :=
| HfScalar (Hf : R)
| HfTuple (Hf : R) (a1 a2 : option R).

Definition calculate_hf (z h : R) (Ta : option R) : result hf_result :=
  let z := if decide (h < z) then h else z in
  match Ta with
  | None =>
      q ← py_div z h;
      Ok (HfTuple (1 + 2.5 * q) None None)
  | Some Ta =>
      if decide (Ta <= 0 \/ h <= 0) then Ok (HfScalar 3.5)
      else
        i ← py_div 1 Ta;
        let a1 := py_min i 2.5 in
        j ← py_div 0.4 Ta;
        let a2 := py_max (1 - j ^ 2) 0 in
        q ← py_div z h;
        q' ← py_div z h;
        Ok (HfTuple (1 + a1 * q + a2 * q' ^ 10) (Some a1) (Some a2))
  end.

Definition calculate_rmu (R_ Ie Omega_0 : R) : result R :=
  try_except
    (q ← py_div (1.1 * R_) (Ie * Omega_0);
     rmu ← py_sqrt q;
     Ok (py_max rmu 1.3))
    ZeroDivisionError
    (Ok 1.3).

Definition calculate_fp_coeff (SDS Ip Wp Hf Rmu CAR Rpo : R)
  : result (R * R * R * R) :=
  a ← py_div Hf Rmu;
  b ← py_div CAR Rpo;
  let Fp_calc := 0.4 * SDS * Ip * a * b in
  let Fp_min := 0.3 * SDS * Ip in
  let Fp_max := 1.6 * SDS * Ip in
  let Fp := py_max (py_min Fp_calc Fp_max) Fp_min in
  Ok (Fp, Fp_calc, Fp_min, Fp_max).

(** ** The caller: the results section of [app.py] *)

(** [Hf, a1, a2 = ...]: unpacking needs a 3-tuple. *)
Definition unpack3 (r : hf_result) : result (R * option R * option R) :=
  match r with
  | HfTuple Hf a1 a2 => Ok (Hf, a1, a2)
  | HfScalar _ => Raise TypeError
  end.

(** A table value used as an operand of [/]. *)
Definition as_num (v : pyval) : result R :=
  match v with
  | VNum r => Ok r
  | VBool b => Ok (if b then 1 else 0)
  | _ => Raise TypeError
  end.

(** The calls of the results section, from a period [Ta] already looked
    up: component factors, [Hf], [Rmu], then the coefficient with
    [Wp = 1.0]. *)
Definition results_section (arch_components : list row)
    (component_name : option string) (z h : R) (Ta : option R)
    (SDS Ip Ie R_ Omega_0 : R) : result (R * R * R * R) :=
  let location_type :=
    if decide (0 < z) then "Supported Above Grade"%string
    else "Supported At or Below Grade"%string in
  '(CAR, Rpo) ← get_component_factors arch_components component_name location_type;
  '(Hf, _, _) ← calculate_hf z h Ta ≫= unpack3;
  Rmu ← calculate_rmu R_ Ie Omega_0;
  let Wp := 1 in
  car ← as_num CAR;
  rpo ← as_num Rpo;
  calculate_fp_coeff SDS Ip Wp Hf Rmu car rpo.

(** A one-row component table, for the scenarios below. *)
Definition arch_ceiling : list row :=
  [ {[ "Component"%string := VStr "Ceiling";
       "CAR_above"%string := VNum 1;
       "CAR_below"%string := VNum 1;
       "Rpo"%string := VNum 1.5 ]} ].

(** A one-row table whose row leaves its factors empty ([null]). *)
Definition arch_blank : list row :=
  [ {[ "Component"%string := VStr "Partition";
       "CAR_above"%string := VNone;
       "CAR_below"%string := VNone;
       "Rpo"%string := VNone ]} ].

(** A one-row SFRS table. *)
Definition sfrs_steel : list row :=
  [ {[ "SFRS"%string := VStr "Steel Frame";
       "R"%string := VNum 8;
       "Omega"%string := VNum 3 ]} ].

(** A row whose name, under label [key], is text other than [name]. *)
Definition other_name (key name : string) (r : row) : Prop :=
  exists s, r !! key = Some (VStr s) /\ PyStr.normalize s <> PyStr.normalize name.

(** ** The inputs of [app.py] *)

(** The option chosen in the occupancy select box. *)
Inductive occupancy : Set := Office | Hospital.

Definition risk_category (o : occupancy) : string :=
  match o with Office => "II" | Hospital => "IV" end.

(** [Ie] and [Ip]: the script gives both the same value. *)
Definition importance (o : occupancy) : R :=
  match o with Office => 1 | Hospital => 1.5 end.

(** Feet per floor. *)
Definition floor_height (o : occupancy) : Z :=
  match o with Office => 12%Z | Hospital => 16%Z end.

(** The option chosen in the building-material select box. *)
Inductive building_type : Set := Steel | Concrete | Masonry | Wood | OtherUnknown.

Definition sfrs_mapping (b : building_type) : option string :=
  match b with
  | Steel => Some "B3. Building frame system: Steel ordinary concentrically braced frames"%string
  | Concrete => Some "A3. Bearing wall system: Ordinary reinforced concrete shear walls"%string
  | Masonry => Some "A10. Bearing wall system: Ordinary reinforced masonry shear walls"%string
  | Wood => Some "A16. Bearing wall system: Light-frame (wood) walls sheathed with wood structural panels rated for shear resistance"%string
  | OtherUnknown => None
  end.

(** [if selected_sfrs: R, Omega_0 = get_sfrs_factors(...) else: 0., 0.] *)
Definition building_factors (sfrs_data : list row) (b : building_type)
  : result (pyval * pyval) :=
  match sfrs_mapping b with
  | Some s =>
      if String.eqb s "" then Ok (VNum 0, VNum 0)
      else get_sfrs_factors sfrs_data (Some s)
  | None => Ok (VNum 0, VNum 0)
  end.

(** The option chosen in the partition-height select box. *)
Inductive partition_height : Set := UpTo9ft | Over9ft.

Definition component_of (p : partition_height) : string :=
  match p with
  | UpTo9ft => "1a. Interior nonstructural walls and partitions: Light frame <= 9 ft in height"
  | Over9ft => "1b. Interior nonstructural walls and partitions: Light frame > 9 ft in height"
  end.

(** [Ta] as [calculate_hf] reads it: [None], or an operand of [<=]. *)
Definition opt_num (v : pyval) : result (option R) :=
  match v with
  | VNone => Ok None
  | _ => r ← as_num v; Ok (Some r)
  end.

(** One run of the script from the widget values down to the
    coefficient, for a fetched [SDS]. *)
Definition app_results (py_pow : R -> pyval -> result pyval)
    (py_mul : pyval -> pyval -> result pyval)
    (sfrs_data arch_components period_data : list row)
    (occ : occupancy) (b : building_type) (num_floors highest_floor : Z)
    (p : partition_height) (SDS : R) : result (R * R * R * R) :=
  let Ie := importance occ in
  let Ip := importance occ in
  '(vR, vOmega) ← building_factors sfrs_data b;
  let h := IZR (num_floors * floor_height occ) in
  let z := IZR (highest_floor * floor_height occ) in
  let location_type :=
    if decide (0 < z) then "Supported Above Grade"%string
    else "Supported At or Below Grade"%string in
  '(CAR, Rpo) ← get_component_factors arch_components (Some (component_of p))
                   location_type;
  '(vTa, _, _) ← calculate_ta py_pow py_mul period_data
                   (Some "All other structural systems"%string) h;
  Ta ← opt_num vTa;
  '(Hf, _, _) ← calculate_hf z h Ta ≫= unpack3;
  R_ ← as_num vR;
  Omega_0 ← as_num vOmega;
  Rmu ← calculate_rmu R_ Ie Omega_0;
  let Wp := 1 in
  car ← as_num CAR;
  rpo ← as_num Rpo;
  calculate_fp_coeff SDS Ip Wp Hf Rmu car rpo.

(** *** The cached SDS *)

(** The three session keys of the SDS cache, after the script has
    initialised the missing ones to [None]. *)
Record sds_cache : Type := SdsCache {
  sds_value : option R;
  sds_location : option string;
  sds_params : option (R * R * string * string)
}.

Section SdsFetch.

(** [fetch_sds_cached]: the remote value for the arguments, or [None]
    when the call raises; and the text of [f"{lat:.6f}, {lon:.6f}"]. *)
Variable fetch : R -> R -> string -> string -> option R.
Variable fmt_location : R -> R -> string.

(** The auto-fetch block: [geo] is the geocoded (lat, lon), if any.
    Returns the new session keys and the script's [SDS]. *)
Definition sds_step (geo : option (R * R)) (occ : occupancy) (s : sds_cache)
  : sds_cache * option R :=
  match geo with
  | Some (lat, lon) =>
      let current_params := (lat, lon, risk_category occ, "Default"%string) in
      let has_cached_sds :=
        match sds_value s with
        | Some _ => bool_decide (sds_params s = Some current_params)
        | None => false
        end in
      if has_cached_sds then (s, sds_value s)
      else
        match fetch lat lon (risk_category occ) "Default" with
        | Some SDS =>
            (SdsCache (Some SDS) (Some (fmt_location lat lon)) (Some current_params),
             Some SDS)
        | None => (s, None)
        end
  | None => (s, None)
  end.

(** The cache after a sequence of runs. *)
Fixpoint sds_runs (inputs : list (option (R * R) * occupancy)) (s : sds_cache)
  : sds_cache :=
  match inputs with
  | [] => s
  | (geo, occ) :: rest => sds_runs rest (sds_step geo occ s).1
  end.

End SdsFetch.

(** Every cached value is the remote value for the cached parameters. *)
Definition sds_coherent (fetch : R -> R -> string -> string -> option R)
    (s : sds_cache) : Prop :=
  forall v lat lon risk site,
    sds_value s = Some v -> sds_params s = Some (lat, lon, risk, site) ->
    fetch lat lon risk site = Some v.

(** ** Authentication: [auth.py] *)

(** A Python object as [json] and the secrets file yield them. *)
#[warnings="-register-all"]
Inductive pyobj : Type :=
| ONone
| OBool (b : bool)
| ONum (r : R)
| OStr (s : string)
| OList (l : list pyobj)
| ODict (m : gmap string pyobj).

(** Truth value: [None], [False], zero and the empty string, list and
    dictionary are false. *)
Definition obj_truthy (v : pyobj) : bool :=
  match v with
  | ONone => false
  | OBool b => b
  | ONum r => if decide (r = 0) then false else true
  | OStr s => negb (String.eqb s "")
  | OList l => match l with [] => false | _ => true end
  | ODict m => negb (Nat.eqb (size m) 0)
  end.

(** [v.get(k, d)]: only a dictionary has the method. *)
Definition obj_get (v : pyobj) (k : string) (d : pyobj) : result pyobj :=
  match v with
  | ODict m => Ok (default d (m !! k))
  | _ => Raise AttributeError
  end.

(** [v.lower()]: only a string has the method. *)
Definition obj_lower (v : pyobj) : result string :=
  match v with
  | OStr s => Ok (PyStr.lower s)
  | _ => Raise AttributeError
  end.

(** The one-character strings of a string, as iterating it yields. *)
Fixpoint chars (s : string) : list pyobj :=
  match s with
  | EmptyString => []
  | String c s' => OStr (String c EmptyString) :: chars s'
  end.

(** [iter(v)]: the elements of a list, the characters of a string, the
    keys of a dictionary. *)
Definition obj_iter (v : pyobj) : result (list pyobj) :=
  match v with
  | OList l => Ok l
  | OStr s => Ok (chars s)
  | ODict m => Ok (OStr <$> (map_to_list m).*1)
  | _ => Raise TypeError
  end.

(** [any(user_email == allowed.lower() or user_upn == allowed.lower()
         for allowed in allowed_users)]. *)
Fixpoint any_allowed (user_email user_upn : string) (allowed_users : list pyobj)
  : result bool :=
  match allowed_users with
  | [] => Ok false
  | allowed :: rest =>
      a ← obj_lower allowed;
      if String.eqb user_email a then Ok true
      else
        a' ← obj_lower allowed;
        if String.eqb user_upn a' then Ok true
        else any_allowed user_email user_upn rest
  end.

(** [MicrosoftAuth.is_user_authorized], with [st.secrets] as [secrets]. *)
Definition is_user_authorized (secrets : gmap string pyobj) (user_info : pyobj)
  : result bool :=
  allowed_users ←
    obj_get (default (ODict ∅) (secrets !! "microsoft"%string))
            "allowed_users" (OList []);
  if negb (obj_truthy allowed_users) then Ok true
  else
    user_email ← obj_get user_info "mail" (OStr "") ≫= obj_lower;
    user_upn ← obj_get user_info "userPrincipalName" (OStr "") ≫= obj_lower;
    items ← obj_iter allowed_users;
    any_allowed user_email user_upn items.

(** The reply of the Graph request: its status and, unless the body
    fails to parse, its JSON. *)
Record http_response : Type := HttpResponse {
  status_code : Z;
  json_body : option pyobj
}.

(** [MicrosoftAuth.get_user_info] on the reply; [None] when
    [response.json()] raises. *)
Definition get_user_info (response : http_response) : option pyobj :=
  if decide (status_code response = 200%Z) then json_body response
  else Some ONone.

(** The four session keys of [auth.py]; [None] is a missing key. *)
Record session : Type := Session {
  authenticated : option bool;
  user_info : option pyobj;
  access_token : option pyobj;
  guest_mode : option bool
}.

(** What one run of the script meets outside itself; [None] stands for
    a call that raises. *)
Record env : Type := Env {
  secrets : gmap string pyobj;
  ms_auth_ok : bool;                         (* MicrosoftAuth() succeeds *)
  token_result : option (gmap string pyobj); (* get_token_from_code *)
  graph_reply : option http_response;        (* requests.get *)
  auth_url_ok : bool;                        (* get_auth_url succeeds *)
  guest_clicked : bool;                      (* the guest button *)
  logout_clicked : bool;                     (* the Logout button *)
  exit_guest_clicked : bool                  (* the Exit Guest Mode button *)
}.

(** How a piece of the script ends: it falls through, [st.stop()],
    [st.rerun()], or an uncaught exception. *)
Inductive outcome : Set := Continue | Stop | Rerun | Abort.

(** The first block of [login_ui]: set each missing key. *)
Definition init_session (s : session) : session :=
  Session
    (Some (default false (authenticated s)))
    (Some (default ONone (user_info s)))
    (Some (default ONone (access_token s)))
    (Some (default false (guest_mode s))).

(** [login_ui]: the session and the URL's query parameters before, and
    after, with how the function ends. *)
Definition login_ui (e : env) (s : session) (query_params : gmap string string)
  : session * gmap string string * outcome :=
  let s := init_session s in
  if default false (authenticated s) || default false (guest_mode s)
  then (s, query_params, Continue)
  else if negb (ms_auth_ok e) then (s, query_params, Stop)
  else
    match query_params !! "code"%string with
    | Some code =>
        match token_result e with
        | None => (s, query_params, Abort)
        | Some token =>
            match token !! "access_token"%string with
            | Some tok =>
                match graph_reply e ≫= get_user_info with
                | None => (s, query_params, Abort)
                | Some info =>
                    if obj_truthy info then
                      match is_user_authorized (secrets e) info with
                      | Ok true =>
                          (Session (Some true) (Some info) (Some tok) (guest_mode s),
                           ∅, Rerun)
                      | Ok false => (s, query_params, Stop)
                      | Raise _ => (s, query_params, Abort)
                      end
                    else (s, query_params, Stop)
                end
            | None => (s, query_params, Stop)
            end
        end
    | None =>
        if negb (auth_url_ok e) then (s, query_params, Abort)
        else if guest_clicked e then
          (Session (authenticated s) (user_info s) (access_token s) (Some true),
           query_params, Rerun)
        else (s, query_params, Stop)
    end.

(** [logout_ui]: reading a missing key raises. *)
Definition logout_ui (e : env) (s : session) : session * outcome :=
  match authenticated s with
  | None => (s, Abort)
  | Some auth =>
      let signed_in :=
        if auth then
          match user_info s with
          | None => None
          | Some info => Some (obj_truthy info)
          end
        else Some false in
      match signed_in with
      | None => (s, Abort)
      | Some true =>
          match user_info s with
          | Some (ODict _) =>
              if logout_clicked e
              then (Session None None None (guest_mode s), Rerun)
              else (s, Continue)
          | _ => (s, Abort)
          end
      | Some false =>
          match guest_mode s with
          | None => (s, Abort)
          | Some true =>
              if exit_guest_clicked e
              then (Session (authenticated s) (user_info s) (access_token s) None,
                    Rerun)
              else (s, Continue)
          | Some false => (s, Continue)
          end
      end
  end.

(** The head of [app.py]: [login_ui()] then [logout_ui()]; the page
    below them is drawn when both fall through. *)
Definition run (e : env) (s : session) (query_params : gmap string string)
  : session * gmap string string * outcome :=
  match login_ui e s query_params with
  | (s', q', Continue) =>
      let '(s'', o) := logout_ui e s' in (s'', q', o)
  | r => r
  end.

(** The session and query parameters after a sequence of runs. *)
Fixpoint runs (es : list env) (s : session) (query_params : gmap string string)
  : session * gmap string string :=
  match es with
  | [] => (s, query_params)
  | e :: rest =>
      let '(s', q', _) := run e s query_params in runs rest s' q'
  end.

(** A session for which the page is drawn. *)
Definition has_access (s : session) : Prop :=
  authenticated s = Some true \/ guest_mode s = Some true.

(** A row whose name, under label [key], is text that normalizes like
    [name]. *)
Definition same_name (key name : string) (r : row) : Prop :=
  exists s, r !! key = Some (VStr s) /\ PyStr.normalize s = PyStr.normalize name.

(** The name label [get_component_factors] settles on: that of the
    first row. *)
Definition label_of (component_data : list row) : string :=
  match component_data with
  | r0 :: _ => if contains r0 "Component" then "Component" else "Components"
  | [] => "Components"
  end.

(** Two rows of the same system under different spellings. *)
Definition sfrs_twice : list row :=
  [ {[ "SFRS"%string := VStr "Steel Frame";
       "R"%string := VNum 8;
       "Omega"%string := VNum 3 ]};
    {[ "SFRS"%string := VStr " STEEL FRAME";
       "R"%string := VNum 5;
       "Omega"%string := VNum 2 ]} ].

(** A table that names its components under [Components]. *)
Definition arch_plural : list row :=
  [ {[ "Components"%string := VStr "Ceiling";
       "CAR_above"%string := VNum 1;
       "CAR_below"%string := VNum 1;
       "Rpo"%string := VNum 1.5 ]};
    {[ "Components"%string := VStr "Partition";
       "CAR_above"%string := VNum 2.2;
       "CAR_below"%string := VNone;
       "Rpo"%string := VNum 0 ]} ].

(** A table whose second row uses the other label. *)
Definition arch_mixed : list row :=
  [ {[ "Component"%string := VStr "Ceiling";
       "CAR_above"%string := VNum 1;
       "CAR_below"%string := VNum 1;
       "Rpo"%string := VNum 1.5 ]};
    {[ "Components"%string := VStr "Partition";
       "CAR_above"%string := VNum 2.2;
       "CAR_below"%string := VNum 1;
       "Rpo"%string := VNum 1.3 ]} ].

(** A one-row period table. *)
Definition period_other : list row :=
  [ {[ "Structure Type "%string := VStr "All other structural systems";
       "Ct"%string := VNum 0.02;
       "x"%string := VNum 0.75 ]} ].

(** [*] and [**] on numbers, the latter for a positive base; the
    properties below ask of the interpreter's operators only that they
    agree with these on numbers. *)
Definition num_mul (a b : pyval) : result pyval :=
  match a, b with
  | VNum x, VNum y => Ok (VNum (x * y))
  | _, _ => Raise TypeError
  end.

Definition num_pow (hn : R) (x : pyval) : result pyval :=
  match x with
  | VNum y => Ok (VNum (Rpower hn y))
  | _ => Raise TypeError
  end.

(** What the period lookup needs of [*] and [**]. *)
Definition numeric_ops (py_pow : R -> pyval -> result pyval)
    (py_mul : pyval -> pyval -> result pyval) : Prop :=
  (forall hn y, 0 < hn -> py_pow hn (VNum y) = Ok (VNum (Rpower hn y)))
  /\ (forall x y, py_mul (VNum x) (VNum y) = Ok (VNum (x * y))).

(** The secrets file with the given allow-list. *)
Definition secrets_allowing (allowed_users : pyobj) : gmap string pyobj :=
  {[ "microsoft"%string := ODict {[ "allowed_users"%string := allowed_users ]} ]}.

(** The session before the first run: no key is set. *)
Definition fresh_session : session := Session None None None None.

(** What [auth.py] keeps true of the session: a signed-in session is
    not a guest session, and it holds the user's information and a
    token. *)
Definition session_consistent (s : session) : Prop :=
  authenticated s = Some true ->
  guest_mode s <> Some true
  /\ exists info tok,
       user_info s = Some info /\ obj_truthy info = true
       /\ access_token s = Some tok.

(** A run in which the sign-in exchange succeeds, with no allow-list. *)
Definition sign_in_env : env :=
  Env ∅ true
      (Some {[ "access_token"%string := OStr "token" ]})
      (Some (HttpResponse 200
               (Some (ODict {[ "displayName"%string := OStr "Ana" ]}))))
      true false false false.

(** The same surroundings with the Logout button pressed. *)
Definition logout_env : env :=
  Env ∅ true None None true false true false.

(** ** Properties of the formulas *)

Lemma py_max_Rmax (a b : R) : py_max a b = Rmax a b.
Proof.
  unfold py_max, Rmax. case_decide; destruct (Rle_dec a b); lra.
Qed.

Lemma py_min_Rmin (a b : R) : py_min a b = Rmin a b.
Proof.
  unfold py_min, Rmin. case_decide; destruct (Rle_dec a b); lra.
Qed.

Lemma py_div_ok (a b : R) : b <> 0 -> py_div a b = Ok (a / b).
Proof. intros Hb. unfold py_div. case_decide; [contradiction | reflexivity]. Qed.

Lemma py_div_zero (a : R) : py_div a 0 = Raise ZeroDivisionError.
Proof. unfold py_div. case_decide; [reflexivity | contradiction]. Qed.

Lemma py_sqrt_ok (x : R) : 0 <= x -> py_sqrt x = Ok (sqrt x).
Proof. intros Hx. unfold py_sqrt. case_decide; [lra | reflexivity]. Qed.

Lemma py_max_lower (a b : R) : b <= py_max a b.
Proof. unfold py_max. case_decide; lra. Qed.

(** The closed form of a successful call. *)
Lemma calculate_fp_coeff_ok (SDS Ip Wp Hf Rmu CAR Rpo : R) :
  Rmu <> 0 -> Rpo <> 0 ->
  calculate_fp_coeff SDS Ip Wp Hf Rmu CAR Rpo =
    Ok (Rmax (Rmin (0.4 * SDS * Ip * (Hf / Rmu) * (CAR / Rpo)) (1.6 * SDS * Ip))
             (0.3 * SDS * Ip),
        0.4 * SDS * Ip * (Hf / Rmu) * (CAR / Rpo),
        0.3 * SDS * Ip,
        1.6 * SDS * Ip).
Proof.
  intros HRmu HRpo. unfold calculate_fp_coeff.
  rewrite !py_div_ok by assumption. simpl.
  by rewrite py_max_Rmax, py_min_Rmin.
Qed.

(** Evaluates a call of [calculate_fp_coeff] on numerals: the closed
    form, then each clamp on the side the numerals decide. *)
Ltac fp_eval :=
  rewrite calculate_fp_coeff_ok by lra;
  first [ rewrite Rmin_left by lra | rewrite Rmin_right by lra ];
  first [ rewrite Rmax_left by lra | rewrite Rmax_right by lra ];
  repeat f_equal; lra.

(** C1. For SDS >= 0 and Ip >= 0, and divisors Rmu and Rpo for which the
    arithmetic is defined, [calculate_fp_coeff] returns
    (Fp, Fp_calc, Fp_min, Fp_max) with Fp_min = 0.3*SDS*Ip,
    Fp_max = 1.6*SDS*Ip, Fp the clamp of Fp_calc to [Fp_min, Fp_max], and
    Fp_min <= Fp <= Fp_max. *)
Theorem calculate_fp_coeff_clamped (SDS Ip Wp Hf Rmu CAR Rpo : R) :
  0 <= SDS -> 0 <= Ip -> Rmu <> 0 -> Rpo <> 0 ->
  exists Fp Fp_calc Fp_min Fp_max,
    calculate_fp_coeff SDS Ip Wp Hf Rmu CAR Rpo = Ok (Fp, Fp_calc, Fp_min, Fp_max)
    /\ Fp_calc = 0.4 * SDS * Ip * (Hf / Rmu) * (CAR / Rpo)
    /\ Fp_min = 0.3 * SDS * Ip
    /\ Fp_max = 1.6 * SDS * Ip
    /\ Fp = Rmax (Rmin Fp_calc Fp_max) Fp_min
    /\ Fp_min <= Fp <= Fp_max.
Proof.
  intros HSDS HIp HRmu HRpo.
  do 4 eexists. split; [by apply calculate_fp_coeff_ok |].
  repeat split; try reflexivity.
  - apply Rmax_r.
  - assert (0 <= SDS * Ip) by (by apply Rmult_le_pos).
    apply Rmax_lub; [apply Rmin_r | lra].
Qed.

Lemma calculate_fp_coeff_clamped_witness :
  exists Fp Fp_calc Fp_min Fp_max,
    calculate_fp_coeff 1 1.5 1 3.5 1.3 5 1 = Ok (Fp, Fp_calc, Fp_min, Fp_max)
    /\ Fp_calc = 0.4 * 1 * 1.5 * (3.5 / 1.3) * (5 / 1)
    /\ Fp_min = 0.3 * 1 * 1.5
    /\ Fp_max = 1.6 * 1 * 1.5
    /\ Fp = Rmax (Rmin Fp_calc Fp_max) Fp_min
    /\ Fp_min <= Fp <= Fp_max.
Proof. apply (calculate_fp_coeff_clamped 1 1.5 1 3.5 1.3 5 1); lra. Defined.

(** What [calculate_rmu] does on each side of the zero test. *)
Lemma calculate_rmu_zero (R_ Ie Omega_0 : R) :
  Ie * Omega_0 = 0 -> calculate_rmu R_ Ie Omega_0 = Ok 1.3.
Proof.
  intros H0. unfold calculate_rmu. rewrite H0, py_div_zero. reflexivity.
Qed.

Lemma calculate_rmu_nonzero (R_ Ie Omega_0 : R) :
  Ie * Omega_0 <> 0 ->
  calculate_rmu R_ Ie Omega_0 =
    if decide (1.1 * R_ / (Ie * Omega_0) < 0) then Raise ValueError
    else Ok (Rmax (sqrt (1.1 * R_ / (Ie * Omega_0))) 1.3).
Proof.
  intros Hne. unfold calculate_rmu. rewrite py_div_ok by assumption. simpl.
  unfold py_sqrt. case_decide; simpl; [reflexivity |].
  by rewrite py_max_Rmax.
Qed.

(** C2. [calculate_rmu] returns exactly 1.3 when Ie * Omega_0 = 0;
    otherwise, on a non-negative radicand, it returns
    max(sqrt(1.1*R/(Ie*Omega_0)), 1.3).  Every value it returns is at
    least 1.3, and it never raises ZeroDivisionError. *)
Theorem calculate_rmu_spec (R_ Ie Omega_0 : R) :
  (Ie * Omega_0 = 0 -> calculate_rmu R_ Ie Omega_0 = Ok 1.3)
  /\ (Ie * Omega_0 <> 0 -> 0 <= 1.1 * R_ / (Ie * Omega_0) ->
      calculate_rmu R_ Ie Omega_0 = Ok (Rmax (sqrt (1.1 * R_ / (Ie * Omega_0))) 1.3))
  /\ (forall rmu, calculate_rmu R_ Ie Omega_0 = Ok rmu -> 1.3 <= rmu)
  /\ calculate_rmu R_ Ie Omega_0 <> Raise ZeroDivisionError.
Proof.
  destruct (decide (Ie * Omega_0 = 0)) as [H0 | Hne].
  - rewrite (calculate_rmu_zero _ _ _ H0).
    repeat split; [contradiction | | discriminate].
    intros rmu [= <-]. lra.
  - rewrite (calculate_rmu_nonzero _ _ _ Hne).
    repeat split; [contradiction | | |].
    + intros Hpos. case_decide; [lra | reflexivity].
    + intros rmu. case_decide; [discriminate |].
      intros [= <-]. apply Rmax_r.
    + case_decide; discriminate.
Qed.

Lemma calculate_rmu_spec_witness :
  calculate_rmu 0 1 0 = Ok 1.3
  /\ calculate_rmu 8 1 3 = Ok (Rmax (sqrt (1.1 * 8 / (1 * 3))) 1.3)
  /\ (forall rmu, calculate_rmu 8 1 3 = Ok rmu -> 1.3 <= rmu).
Proof.
  split; [| split].
  - apply (calculate_rmu_spec 0 1 0). lra.
  - apply (calculate_rmu_spec 8 1 3); lra.
  - apply (calculate_rmu_spec 8 1 3).
Defined.

(** C7, as stated, fails: at SDS = Ip = 1 the call returns Fp_min = 0.3
    and Fp_max = 1.6, and 0.75 * 1.6 / 2 is 0.6. *)
Lemma fp_min_not_three_eighths_counterexample :
  calculate_fp_coeff 1 1 1 1 1 1 1 = Ok (0.4, 0.4, 0.3, 1.6)
  /\ 0.3 <> 0.75 * 1.6 / 2.
Proof.
  split; [fp_eval | lra].
Qed.

(** C7, amended. The intermediates returned by [calculate_fp_coeff]
    satisfy Fp_max = 16/3 * Fp_min, that is Fp_min = 0.375 * Fp_max / 2. *)
Theorem fp_min_max_ratio (SDS Ip Wp Hf Rmu CAR Rpo : R) :
  Rmu <> 0 -> Rpo <> 0 ->
  exists Fp Fp_calc Fp_min Fp_max,
    calculate_fp_coeff SDS Ip Wp Hf Rmu CAR Rpo = Ok (Fp, Fp_calc, Fp_min, Fp_max)
    /\ Fp_max = 16 / 3 * Fp_min
    /\ Fp_min = 0.375 * Fp_max / 2.
Proof.
  intros HRmu HRpo. do 4 eexists.
  split; [by apply calculate_fp_coeff_ok |]. split; lra.
Qed.

Lemma fp_min_max_ratio_witness :
  exists Fp Fp_calc Fp_min Fp_max,
    calculate_fp_coeff 1 1.5 1 3.5 1.3 1 1.5 = Ok (Fp, Fp_calc, Fp_min, Fp_max)
    /\ Fp_max = 16 / 3 * Fp_min
    /\ Fp_min = 0.375 * Fp_max / 2.
Proof. apply (fp_min_max_ratio 1 1.5 1 3.5 1.3 1 1.5); lra. Defined.

(** C9. The result of [calculate_fp_coeff] does not depend on Wp. *)
Theorem calculate_fp_coeff_ignores_Wp (SDS Ip Wp1 Wp2 Hf Rmu CAR Rpo : R) :
  calculate_fp_coeff SDS Ip Wp1 Hf Rmu CAR Rpo
  = calculate_fp_coeff SDS Ip Wp2 Hf Rmu CAR Rpo.
Proof. reflexivity. Qed.

(** With Ta absent and a non-zero height the call returns the linear
    amplification of the clamped attachment height. *)
Lemma calculate_hf_absent (z h : R) :
  h <> 0 ->
  calculate_hf z h None
  = Ok (HfTuple (1 + 2.5 * ((if decide (h < z) then h else z) / h)) None None).
Proof. intros Hh. unfold calculate_hf. by rewrite py_div_ok. Qed.

(** C10. With Ta absent, h > 0 and z >= 0, [calculate_hf] returns
    Hf = 1 + 2.5 * (min(z, h) / h) with no shape coefficients; Hf lies in
    [1, 3.5] and equals 3.5 exactly when z >= h. *)
Theorem calculate_hf_absent_bounds (z h : R) :
  0 < h -> 0 <= z ->
  exists Hf,
    calculate_hf z h None = Ok (HfTuple Hf None None)
    /\ Hf = 1 + 2.5 * (Rmin z h / h)
    /\ 1 <= Hf <= 3.5
    /\ (Hf = 3.5 <-> h <= z).
Proof.
  intros Hh Hz. eexists. split; [apply calculate_hf_absent; lra |].
  assert (Hq : (if decide (h < z) then h else z) = Rmin z h).
  { unfold Rmin. case_decide; destruct (Rle_dec z h); lra. }
  rewrite Hq. split; [reflexivity |].
  assert (Hlo : 0 <= Rmin z h) by (apply Rmin_glb; lra).
  assert (Hhi : Rmin z h <= h) by apply Rmin_r.
  assert (Hinv : 0 < / h) by (by apply Rinv_0_lt_compat).
  assert (H0 : 0 <= Rmin z h / h).
  { unfold Rdiv. apply Rmult_le_pos; lra. }
  assert (H1 : Rmin z h / h <= 1).
  { apply (Rmult_le_reg_r h); [assumption |].
    unfold Rdiv. rewrite Rmult_assoc, Rinv_l by lra. lra. }
  split; [lra |]. split.
  - intros Heq. assert (Hone : Rmin z h / h = 1) by lra.
    assert (Hm : Rmin z h = h).
    { apply (Rmult_eq_reg_r (/ h)); [| lra].
      rewrite Rinv_r by lra. exact Hone. }
    rewrite <- Hm at 1. apply Rmin_l.
  - intros Hle. rewrite Rmin_right by assumption.
    unfold Rdiv. rewrite Rinv_r by lra. lra.
Qed.

Lemma calculate_hf_absent_bounds_witness :
  exists Hf,
    calculate_hf 30 60 None = Ok (HfTuple Hf None None)
    /\ Hf = 1 + 2.5 * (Rmin 30 60 / 60)
    /\ 1 <= Hf <= 3.5
    /\ (Hf = 3.5 <-> 60 <= 30).
Proof. apply (calculate_hf_absent_bounds 30 60); lra. Defined.

(** ** The end-to-end scenario *)

Lemma component_miss_ceiling (location : string) :
  get_component_factors arch_ceiling (Some "Partition"%string) location
  = Ok (VNum 1, VNum 1).
Proof. reflexivity. Qed.

Lemma component_blank_partition (location : string) :
  get_component_factors arch_blank (Some "Partition"%string) location
  = Ok (VNum 1, VNum 1.5).
Proof.
  unfold get_component_factors, arch_blank. simpl.
  destruct (String.eqb location "Supported Above Grade"); reflexivity.
Qed.

Lemma calculate_hf_top_floor : calculate_hf 60 60 None = Ok (HfTuple 3.5 None None).
Proof.
  rewrite calculate_hf_absent by lra.
  case_decide; [lra |]. do 2 f_equal. lra.
Qed.

Lemma fp_coeff_scenario (Wp : R) :
  calculate_fp_coeff 1 1.5 Wp 3.5 1.3 1 1.5 = Ok (1.4 / 1.3, 1.4 / 1.3, 0.45, 2.4).
Proof. fp_eval. Qed.

Lemma fp_coeff_scenario_miss (Wp : R) :
  calculate_fp_coeff 1 1.5 Wp 3.5 1.3 1 1 = Ok (2.1 / 1.3, 2.1 / 1.3, 0.45, 2.4).
Proof. fp_eval. Qed.

(** The scenario that forces the upper clamp. *)
Example fp_coeff_max_clamp (Wp : R) :
  calculate_fp_coeff 1 1.5 Wp 3.5 1.3 5 1 = Ok (2.4, 10.5 / 1.3, 0.45, 2.4).
Proof. fp_eval. Qed.

(** The general case of the demand reduction: above the floor. *)
Example rmu_general_case :
  calculate_rmu 8 1 3 = Ok (sqrt (1.1 * 8 / (1 * 3)))
  /\ 1.3 < sqrt (1.1 * 8 / (1 * 3)).
Proof.
  assert (Hlt : 1.3 < sqrt (1.1 * 8 / (1 * 3))).
  { rewrite <- (sqrt_square 1.3) at 1 by lra. apply sqrt_lt_1; lra. }
  split; [| exact Hlt].
  rewrite calculate_rmu_nonzero by lra.
  case_decide; [lra |]. by rewrite Rmax_left by lra.
Qed.

(** C6, as stated, fails: a component name that matches no row gives
    the factors (1.0, 1.0), not (1.0, 1.5), and the scenario then ends
    with Fp_calc = 2.1/1.3, not 1.4/1.3. *)
Lemma scenario_lookup_miss_counterexample :
  get_component_factors arch_ceiling (Some "Partition"%string)
    "Supported Above Grade" = Ok (VNum 1, VNum 1)
  /\ VNum 1 <> VNum 1.5
  /\ results_section arch_ceiling (Some "Partition"%string) 60 60 None 1 1.5 1 0 0
     = Ok (2.1 / 1.3, 2.1 / 1.3, 0.45, 2.4)
  /\ 2.1 / 1.3 <> 1.4 / 1.3.
Proof.
  split; [reflexivity |]. split; [intros [= H]; lra |]. split; [| lra].
  unfold results_section.
  rewrite component_miss_ceiling, calculate_hf_top_floor. simpl.
  rewrite calculate_rmu_zero by lra. simpl.
  apply fp_coeff_scenario_miss.
Qed.

(** C6, amended. For SDS = 1.0, Ip = 1.5, h = z = 60, Ta absent, R = 0,
    Omega_0 = 0 and the factors CAR = 1.0, Rpo = 1.5 (those of a matched
    row whose CAR and Rpo are empty): Hf = 3.5, Rmu = 1.3,
    Fp_calc = 0.4*1.0*1.5*(3.5/1.3)*(1.0/1.5) = 1.4/1.3, Fp_min = 0.45,
    Fp_max = 2.4, and Fp = Fp_calc, unclamped. *)
Theorem end_to_end_scenario (Ie Wp : R) :
  calculate_hf 60 60 None = Ok (HfTuple 3.5 None None)
  /\ calculate_rmu 0 Ie 0 = Ok 1.3
  /\ calculate_fp_coeff 1 1.5 Wp 3.5 1.3 1 1.5
     = Ok (1.4 / 1.3, 1.4 / 1.3, 0.45, 2.4)
  /\ 0.4 * 1 * 1.5 * (3.5 / 1.3) * (1 / 1.5) = 1.4 / 1.3
  /\ 0.45 < 1.4 / 1.3 < 2.4
  /\ results_section arch_blank (Some "Partition"%string) 60 60 None 1 1.5 Ie 0 0
     = Ok (1.4 / 1.3, 1.4 / 1.3, 0.45, 2.4).
Proof.
  split; [apply calculate_hf_top_floor |].
  split; [apply calculate_rmu_zero; lra |].
  split; [apply fp_coeff_scenario |].
  split; [lra |]. split; [lra |].
  unfold results_section.
  rewrite component_blank_partition, calculate_hf_top_floor. simpl.
  rewrite calculate_rmu_zero by lra. simpl.
  apply fp_coeff_scenario.
Qed.

(** ** The degenerate inputs of [calculate_hf] *)

(** The guard of the present-Ta branch returns the bare number. *)
Lemma calculate_hf_guard (z h Ta : R) :
  Ta <= 0 \/ h <= 0 -> calculate_hf z h (Some Ta) = Ok (HfScalar 3.5).
Proof. intros Hg. unfold calculate_hf. case_decide; [reflexivity | contradiction]. Qed.

(** Past the guard every division is defined. *)
Lemma calculate_hf_present (z h Ta : R) :
  0 < Ta -> 0 < h ->
  exists Hf a1 a2,
    calculate_hf z h (Some Ta) = Ok (HfTuple Hf (Some a1) (Some a2))
    /\ a1 = Rmin (1 / Ta) 2.5
    /\ a2 = Rmax (1 - (0.4 / Ta) ^ 2) 0
    /\ Hf = 1 + a1 * (Rmin z h / h) + a2 * (Rmin z h / h) ^ 10.
Proof.
  intros HTa Hh. unfold calculate_hf.
  case_decide as Hg; [lra |].
  rewrite !py_div_ok by lra. simpl.
  do 3 eexists. split; [reflexivity |].
  rewrite py_min_Rmin, py_max_Rmax.
  assert (Hq : (if decide (h < z) then h else z) = Rmin z h).
  { unfold Rmin. case_decide; destruct (Rle_dec z h); lra. }
  rewrite Hq. done.
Qed.

(** With Ta absent nothing guards the division by h. *)
Lemma calculate_hf_absent_zero (z : R) :
  calculate_hf z 0 None = Raise ZeroDivisionError.
Proof. unfold calculate_hf. by rewrite py_div_zero. Qed.

(** Apart from that input, the call returns. *)
Lemma calculate_hf_returns (z h : R) (Ta : option R) :
  h <> 0 \/ Ta <> None -> exists r, calculate_hf z h Ta = Ok r.
Proof.
  intros Hin. destruct Ta as [Ta |].
  - destruct (decide (Ta <= 0 \/ h <= 0)) as [Hg | Hg].
    + eexists. by apply calculate_hf_guard.
    + destruct (calculate_hf_present z h Ta) as (Hf & a1 & a2 & -> & _); [lra .. |].
      by eexists.
  - destruct Hin as [Hh | Habs]; [| done].
    eexists. by apply calculate_hf_absent.
Qed.

(** C3. On the degenerate input z = 30, h = 60, Ta = 0 the guard
    returns the bare number 3.5, not the triple (3.5, absent, absent);
    the caller's unpacking of that result raises TypeError. *)
Theorem calculate_hf_guard_returns_scalar :
  calculate_hf 30 60 (Some 0) = Ok (HfScalar 3.5)
  /\ calculate_hf 30 60 (Some 0) <> Ok (HfTuple 3.5 None None)
  /\ calculate_hf 30 60 (Some 0) ≫= unpack3 = Raise TypeError.
Proof.
  rewrite calculate_hf_guard by lra. by repeat split.
Qed.

(** C4. With h = 0 and Ta absent, [calculate_hf] raises
    ZeroDivisionError. *)
Theorem calculate_hf_zero_height_raises :
  calculate_hf 0 0 None = Raise ZeroDivisionError.
Proof. apply calculate_hf_absent_zero. Qed.

(** ** Properties of the lookups *)

(** The three loops read the key only through its normal form. *)
Lemma sfrs_loop_normalize (rows : list row) (k k' : string) :
  PyStr.normalize k = PyStr.normalize k' -> sfrs_loop rows k = sfrs_loop rows k'.
Proof.
  intros Hn. induction rows as [| r rest IH]; simpl; [reflexivity |].
  by rewrite Hn, IH.
Qed.

Lemma component_loop_normalize (key : string) (rows : list row)
    (k k' location : string) :
  PyStr.normalize k = PyStr.normalize k' ->
  component_loop key rows k location = component_loop key rows k' location.
Proof.
  intros Hn. induction rows as [| r rest IH]; simpl; [reflexivity |].
  by rewrite Hn, IH.
Qed.

Lemma ta_loop_normalize (py_pow : R -> pyval -> result pyval)
    (py_mul : pyval -> pyval -> result pyval)
    (rows : list row) (k k' : string) (hn : R) :
  PyStr.normalize k = PyStr.normalize k' ->
  ta_loop py_pow py_mul rows k hn = ta_loop py_pow py_mul rows k' hn.
Proof.
  intros Hn. induction rows as [| r rest IH]; simpl; [reflexivity |].
  by rewrite Hn, IH.
Qed.

Example normalize_steel_frame :
  PyStr.normalize " Steel Frame " = "steel frame"%string
  /\ PyStr.normalize "steel frame" = "steel frame"%string.
Proof. split; reflexivity. Qed.

(** C8. Two present keys with the same trimmed, case-folded form get
    identical results from [get_sfrs_factors], from
    [get_component_factors] (same location flag) and from [calculate_ta]
    (same height), on every table. *)
Theorem lookups_key_insensitive
    (py_pow : R -> pyval -> result pyval)
    (py_mul : pyval -> pyval -> result pyval)
    (sfrs_data component_data period_data : list row)
    (k k' location : string) (hn : R) :
  PyStr.normalize k = PyStr.normalize k' ->
  get_sfrs_factors sfrs_data (Some k) = get_sfrs_factors sfrs_data (Some k')
  /\ get_component_factors component_data (Some k) location
     = get_component_factors component_data (Some k') location
  /\ calculate_ta py_pow py_mul period_data (Some k) hn
     = calculate_ta py_pow py_mul period_data (Some k') hn.
Proof.
  intros Hn. split; [| split]; simpl.
  - by apply sfrs_loop_normalize.
  - destruct (first_row component_data) as [r0 | e]; simpl; [| reflexivity].
    by apply component_loop_normalize.
  - by apply ta_loop_normalize.
Qed.

Lemma lookups_key_insensitive_witness :
  PyStr.normalize " Steel Frame " = PyStr.normalize "steel frame"
  /\ (get_sfrs_factors sfrs_steel (Some " Steel Frame "%string)
      = get_sfrs_factors sfrs_steel (Some "steel frame"%string)
      /\ get_component_factors arch_ceiling (Some " Steel Frame "%string)
           "Supported Above Grade"
         = get_component_factors arch_ceiling (Some "steel frame"%string)
           "Supported Above Grade"
      /\ calculate_ta (fun _ _ => Raise TypeError) (fun _ _ => Raise TypeError)
           [] (Some " Steel Frame "%string) 60
         = calculate_ta (fun _ _ => Raise TypeError) (fun _ _ => Raise TypeError)
           [] (Some "steel frame"%string) 60).
Proof.
  split; [reflexivity |].
  apply (lookups_key_insensitive
           (fun _ _ => Raise TypeError) (fun _ _ => Raise TypeError)
           sfrs_steel arch_ceiling [] " Steel Frame " "steel frame"
           "Supported Above Grade" 60).
  reflexivity.
Defined.

Example sfrs_steel_found :
  get_sfrs_factors sfrs_steel (Some " Steel Frame "%string) = Ok (VNum 8, VNum 3).
Proof. reflexivity. Qed.

(** An absent component name short-circuits before the table is read. *)
Lemma get_component_factors_absent (component_data : list row) (location : string) :
  get_component_factors component_data None location = Ok (VNum 1, VNum 1).
Proof. reflexivity. Qed.

Lemma component_loop_miss (key : string) (rows : list row) (name location : string) :
  Forall (other_name key name) rows ->
  component_loop key rows name location = Ok (VNum 1, VNum 1).
Proof.
  induction 1 as [| r rest (s & Hs & Hne) _ IH]; simpl; [reflexivity |].
  unfold getitem. rewrite Hs. simpl.
  apply String.eqb_neq in Hne. by rewrite Hne.
Qed.

(** On a table with a first row, a name matching no row falls back. *)
Lemma get_component_factors_miss (r0 : row) (rest : list row)
    (name location : string) :
  Forall (other_name (if contains r0 "Component" then "Component" else "Components")
                     name) (r0 :: rest) ->
  get_component_factors (r0 :: rest) (Some name) location = Ok (VNum 1, VNum 1).
Proof. intros Hall. by apply component_loop_miss. Qed.

(** The sibling lookups fall back on the empty table. *)
Lemma siblings_empty_table (py_pow : R -> pyval -> result pyval)
    (py_mul : pyval -> pyval -> result pyval) (k : string) (hn : R) :
  get_sfrs_factors [] (Some k) = Ok (VNum 1, VNum 1)
  /\ calculate_ta py_pow py_mul [] (Some k) hn = Ok (VNone, VNone, VNone).
Proof. split; reflexivity. Qed.

(** C5. On the empty table with a present component name the lookup
    raises IndexError instead of returning the fallback (1.0, 1.0). *)
Theorem get_component_factors_empty_table_raises :
  get_component_factors [] (Some "Partition"%string) "Supported Above Grade"
  = Raise IndexError.
Proof. reflexivity. Qed.

(** ** More on the height amplification *)

(** The clamped attachment height. *)
Lemma clamp_z_Rmin (z h : R) : (if decide (h < z) then h else z) = Rmin z h.
Proof. unfold Rmin. case_decide; destruct (Rle_dec z h); lra. Qed.

(** The height ratio of an attachment inside a building of positive
    height lies in [0, 1]. *)
Lemma height_ratio_unit (z h : R) :
  0 < h -> 0 <= z -> 0 <= Rmin z h / h <= 1.
Proof.
  intros Hh Hz.
  assert (Hlo : 0 <= Rmin z h) by (apply Rmin_glb; lra).
  assert (Hhi : Rmin z h <= h) by apply Rmin_r.
  assert (Hinv : 0 < / h) by (by apply Rinv_0_lt_compat).
  split.
  - unfold Rdiv. apply Rmult_le_pos; lra.
  - apply (Rmult_le_reg_r h); [assumption |].
    unfold Rdiv. rewrite Rmult_assoc, Rinv_l by lra. lra.
Qed.

Lemma height_ratio_mono (z1 z2 h : R) :
  0 < h -> z1 <= z2 -> Rmin z1 h / h <= Rmin z2 h / h.
Proof.
  intros Hh Hz.
  assert (Hinv : 0 < / h) by (by apply Rinv_0_lt_compat).
  unfold Rdiv. apply Rmult_le_compat_r; [lra |].
  apply Rmin_glb; [| apply Rmin_r].
  etransitivity; [apply Rmin_l | exact Hz].
Qed.

(** The two shape coefficients, as functions of the period. *)
Lemma shape_coefficients (Ta : R) :
  0 < Ta ->
  0 < Rmin (1 / Ta) 2.5 <= 2.5
  /\ 0 <= Rmax (1 - (0.4 / Ta) ^ 2) 0 < 1
  /\ Rmin (1 / Ta) 2.5 + Rmax (1 - (0.4 / Ta) ^ 2) 0 <= 2.5.
Proof.
  intros HTa.
  assert (Ht : 0 < / Ta) by (by apply Rinv_0_lt_compat).
  replace (1 / Ta) with (/ Ta) by (unfold Rdiv; lra).
  replace ((0.4 / Ta) ^ 2) with (0.16 * (/ Ta * / Ta)) by (unfold Rdiv; simpl; lra).
  set (t := / Ta) in *.
  assert (Htt : 0 < t * t) by nra.
  split; [| split].
  - split; [apply Rmin_glb_lt; lra | apply Rmin_r].
  - split; [apply Rmax_r | apply Rmax_lub_lt; lra].
  - destruct (Rle_dec t 2.5) as [Hle | Hgt].
    + rewrite Rmin_left by assumption.
      rewrite Rmax_left by nra. nra.
    + rewrite Rmin_right by lra.
      rewrite Rmax_right by nra. lra.
Qed.

(** Supplying z > h gives the same result as supplying z = h, on
    every branch, errors included. *)
Lemma calculate_hf_clamps_z (z h : R) (Ta : option R) :
  h < z -> calculate_hf z h Ta = calculate_hf h h Ta.
Proof.
  intros Hzh. unfold calculate_hf.
  destruct (decide (h < z)); [| lra].
  destruct (decide (h < h)); [lra | reflexivity].
Qed.


(** X1. With a positive period, a positive height and z >= 0 the
    shape coefficients satisfy 0 < a1 <= 2.5 and 0 <= a2 < 1, and the
    amplification lies in [1, 1 + a1 + a2], which never exceeds 3.5; it
    is 1 at z = 0 and 1 + a1 + a2 at z >= h. *)
Theorem calculate_hf_present_bounds (z h Ta : R) :
  0 < Ta -> 0 < h -> 0 <= z ->
  exists Hf a1 a2,
    calculate_hf z h (Some Ta) = Ok (HfTuple Hf (Some a1) (Some a2))
    /\ 0 < a1 <= 2.5 /\ 0 <= a2 < 1
    /\ 1 <= Hf <= 1 + a1 + a2
    /\ 1 + a1 + a2 <= 3.5
    /\ (z = 0 -> Hf = 1)
    /\ (h <= z -> Hf = 1 + a1 + a2).
Proof.
  intros HTa Hh Hz.
  destruct (calculate_hf_present z h Ta HTa Hh) as (Hf & a1 & a2 & Hcall & Ha1 & Ha2 & HHf).
  exists Hf, a1, a2. split; [exact Hcall |].
  destruct (shape_coefficients Ta HTa) as (Hb1 & Hb2 & Hsum).
  rewrite <- Ha1 in Hb1, Hsum. rewrite <- Ha2 in Hb2, Hsum.
  destruct (height_ratio_unit z h Hh Hz) as [Hq0 Hq1].
  set (q := Rmin z h / h) in *.
  assert (Hp0 : 0 <= q ^ 10) by (by apply pow_le).
  assert (Hp1 : q ^ 10 <= 1).
  { rewrite <- (pow1 10). by apply pow_incr. }
  repeat split; try lra.
  - rewrite HHf. nra.
  - rewrite HHf. nra.
  - intros ->. rewrite HHf. subst q.
    rewrite Rmin_left by lra. unfold Rdiv. rewrite Rmult_0_l.
    rewrite pow_i by lia. lra.
  - intros Hle. rewrite HHf. subst q.
    rewrite Rmin_right by assumption. unfold Rdiv. rewrite Rinv_r by lra.
    rewrite pow1. lra.
Qed.

Lemma calculate_hf_present_bounds_witness :
  exists Hf a1 a2,
    calculate_hf 30 60 (Some 0.5) = Ok (HfTuple Hf (Some a1) (Some a2))
    /\ 0 < a1 <= 2.5 /\ 0 <= a2 < 1
    /\ 1 <= Hf <= 1 + a1 + a2
    /\ 1 + a1 + a2 <= 3.5
    /\ (30 = 0 -> Hf = 1)
    /\ (60 <= 30 -> Hf = 1 + a1 + a2).
Proof. apply (calculate_hf_present_bounds 30 60 0.5); lra. Defined.

(** X2. The amplification does not decrease with the attachment
    height: for 0 <= z1 <= z2 and h > 0, with Ta absent or positive, the
    Hf returned at z1 is at most the Hf returned at z2. *)
Theorem calculate_hf_monotone (z1 z2 h : R) (Ta : option R) :
  0 < h -> 0 <= z1 -> z1 <= z2 ->
  (forall t, Ta = Some t -> 0 < t) ->
  exists Hf1 Hf2 a1 a2,
    calculate_hf z1 h Ta = Ok (HfTuple Hf1 a1 a2)
    /\ calculate_hf z2 h Ta = Ok (HfTuple Hf2 a1 a2)
    /\ Hf1 <= Hf2.
Proof.
  intros Hh Hz1 Hz12 HTa.
  destruct (height_ratio_unit z1 h Hh Hz1) as [Hq0 _].
  pose proof (height_ratio_mono z1 z2 h Hh Hz12) as Hq.
  destruct Ta as [t |].
  - specialize (HTa t eq_refl).
    destruct (calculate_hf_present z1 h t HTa Hh) as (Hf1 & a1 & a2 & -> & Ha1 & Ha2 & ->).
    destruct (calculate_hf_present z2 h t HTa Hh) as (Hf2 & b1 & b2 & -> & Hb1 & Hb2 & ->).
    rewrite <- Ha1 in Hb1. rewrite <- Ha2 in Hb2. rewrite Hb1, Hb2.
    do 4 eexists. split; [reflexivity |]. split; [reflexivity |].
    destruct (shape_coefficients t HTa) as (Hs1 & Hs2 & _).
    rewrite <- Ha1 in Hs1. rewrite <- Ha2 in Hs2.
    assert (Hp : (Rmin z1 h / h) ^ 10 <= (Rmin z2 h / h) ^ 10) by (by apply pow_incr).
    nra.
  - rewrite !calculate_hf_absent by lra. rewrite !clamp_z_Rmin.
    do 4 eexists. split; [reflexivity |]. split; [reflexivity |]. lra.
Qed.

Lemma calculate_hf_monotone_witness :
  exists Hf1 Hf2 a1 a2,
    calculate_hf 24 60 (Some 0.5) = Ok (HfTuple Hf1 a1 a2)
    /\ calculate_hf 48 60 (Some 0.5) = Ok (HfTuple Hf2 a1 a2)
    /\ Hf1 <= Hf2.
Proof.
  apply (calculate_hf_monotone 24 48 60 (Some 0.5)); try lra.
  intros t [= <-]. lra.
Defined.

(** X3. For a period of at most 0.4 the shape coefficients are 2.5 and
    0, so the present-Ta branch returns the same Hf as the absent-Ta
    branch. *)
Theorem calculate_hf_short_period (z h Ta : R) :
  0 < Ta -> Ta <= 0.4 -> 0 < h ->
  exists Hf,
    calculate_hf z h (Some Ta) = Ok (HfTuple Hf (Some 2.5) (Some 0))
    /\ calculate_hf z h None = Ok (HfTuple Hf None None).
Proof.
  intros HTa Hshort Hh.
  destruct (calculate_hf_present z h Ta HTa Hh) as (Hf & a1 & a2 & -> & Ha1 & Ha2 & ->).
  rewrite calculate_hf_absent by lra. rewrite clamp_z_Rmin.
  assert (Ht : 2.5 <= / Ta).
  { rewrite <- (Rinv_inv Ta). replace 2.5 with (/ 0.4) by lra.
    rewrite Rinv_inv. apply Rinv_le_contravar; lra. }
  assert (E1 : a1 = 2.5).
  { rewrite Ha1. apply Rmin_right. unfold Rdiv. lra. }
  assert (E2 : a2 = 0).
  { rewrite Ha2. apply Rmax_right. unfold Rdiv. simpl. nra. }
  rewrite E1, E2. eexists. split; [reflexivity |].
  do 2 f_equal. lra.
Qed.

Lemma calculate_hf_short_period_witness :
  exists Hf,
    calculate_hf 30 60 (Some 0.25) = Ok (HfTuple Hf (Some 2.5) (Some 0))
    /\ calculate_hf 30 60 None = Ok (HfTuple Hf None None).
Proof. apply (calculate_hf_short_period 30 60 0.25); lra. Defined.

(** X4. With Ta absent nothing guards a negative height: the call
    returns an amplification of at least 3.5, exactly 3.5 when z >= h. *)
Theorem calculate_hf_absent_negative_height (z h : R) :
  h < 0 ->
  exists Hf,
    calculate_hf z h None = Ok (HfTuple Hf None None)
    /\ 3.5 <= Hf
    /\ (h <= z -> Hf = 3.5)
    /\ (z < h -> 3.5 < Hf).
Proof.
  intros Hh. rewrite calculate_hf_absent by lra. rewrite clamp_z_Rmin.
  eexists. split; [reflexivity |].
  assert (Hinv : / h < 0) by (by apply Rinv_lt_0_compat).
  assert (Hm : Rmin z h <= h) by apply Rmin_r.
  assert (Hone : h * / h = 1) by (apply Rinv_r; lra).
  unfold Rdiv. split; [nra |]. split.
  - intros Hle. rewrite Rmin_right by assumption. lra.
  - intros Hlt. rewrite Rmin_left by lra. nra.
Qed.

Lemma calculate_hf_absent_negative_height_witness :
  exists Hf,
    calculate_hf (-20) (-10) None = Ok (HfTuple Hf None None)
    /\ 3.5 <= Hf
    /\ (-10 <= -20 -> Hf = 3.5)
    /\ (-20 < -10 -> 3.5 < Hf).
Proof. apply (calculate_hf_absent_negative_height (-20) (-10)); lra. Defined.

(** ** More on the demand reduction *)

(** X5. A negative radicand is not caught: with a non-zero
    denominator of sign opposite to R the call raises ValueError. *)
Theorem calculate_rmu_negative_radicand (R_ Ie Omega_0 : R) :
  R_ * (Ie * Omega_0) < 0 ->
  calculate_rmu R_ Ie Omega_0 = Raise ValueError.
Proof.
  intros Hneg.
  assert (Hne : Ie * Omega_0 <> 0).
  { intros H0. rewrite H0 in Hneg. lra. }
  rewrite calculate_rmu_nonzero by assumption.
  case_decide as Hrad; [reflexivity |].
  exfalso. apply Hrad.
  set (d := Ie * Omega_0) in *.
  assert (Hd : d * / d = 1) by (by apply Rinv_r).
  unfold Rdiv.
  destruct (Rlt_dec 0 d) as [Hpos | Hnpos].
  - assert (0 < / d) by (by apply Rinv_0_lt_compat). nra.
  - assert (/ d < 0) by (apply Rinv_lt_0_compat; lra). nra.
Qed.

Lemma calculate_rmu_negative_radicand_witness :
  calculate_rmu (-8) 1 3 = Raise ValueError.
Proof. apply (calculate_rmu_negative_radicand (-8) 1 3). lra. Defined.

(** X6. For R >= 0 and Ie * Omega_0 > 0 the call returns, and the
    floor is the result exactly when 1.1 R <= 1.69 Ie Omega_0; above
    that the result is the square root, greater than 1.3.  In both
    cases the square of the result is max(1.1 R / (Ie Omega_0), 1.69). *)
Theorem calculate_rmu_floor_threshold (R_ Ie Omega_0 : R) :
  0 <= R_ -> 0 < Ie * Omega_0 ->
  exists rmu,
    calculate_rmu R_ Ie Omega_0 = Ok rmu
    /\ (rmu = 1.3 <-> 1.1 * R_ <= 1.69 * (Ie * Omega_0))
    /\ (1.69 * (Ie * Omega_0) < 1.1 * R_ ->
        rmu = sqrt (1.1 * R_ / (Ie * Omega_0)) /\ 1.3 < rmu)
    /\ rmu * rmu = Rmax (1.1 * R_ / (Ie * Omega_0)) 1.69.
Proof.
  intros HR Hd. set (d := Ie * Omega_0) in *.
  assert (Hinv : 0 < / d) by (by apply Rinv_0_lt_compat).
  assert (Hdd : d * / d = 1) by (apply Rinv_r; lra).
  assert (Hrad : 0 <= 1.1 * R_ / d) by (unfold Rdiv; nra).
  assert (Hs13 : sqrt 1.69 = 1.3).
  { replace 1.69 with (1.3 * 1.3) by lra. apply sqrt_square. lra. }
  unfold calculate_rmu. fold d. rewrite py_div_ok by lra. simpl.
  rewrite py_sqrt_ok by assumption. simpl. rewrite py_max_Rmax.
  eexists. split; [reflexivity |].
  destruct (Rle_dec (1.1 * R_ / d) 1.69) as [Hle | Hgt].
  - assert (Hsq : sqrt (1.1 * R_ / d) <= 1.3).
    { rewrite <- Hs13. by apply sqrt_le_1_alt. }
    rewrite Rmax_right by assumption. rewrite (Rmax_right _ 1.69) by assumption.
    assert (Hin : 1.1 * R_ <= 1.69 * d) by (unfold Rdiv in Hle; nra).
    split; [tauto |]. split; [lra | lra].
  - assert (Hlt : 1.69 < 1.1 * R_ / d) by lra.
    assert (Hsq : 1.3 < sqrt (1.1 * R_ / d)).
    { rewrite <- Hs13. apply sqrt_lt_1_alt. lra. }
    rewrite Rmax_left by lra. rewrite (Rmax_left _ 1.69) by lra.
    assert (Hin : 1.69 * d < 1.1 * R_) by (unfold Rdiv in Hlt; nra).
    split; [split; lra |]. split; [auto |].
    by apply sqrt_sqrt.
Qed.

Lemma calculate_rmu_floor_threshold_witness :
  exists rmu,
    calculate_rmu 1 1.5 1 = Ok rmu
    /\ (rmu = 1.3 <-> 1.1 * 1 <= 1.69 * (1.5 * 1))
    /\ (1.69 * (1.5 * 1) < 1.1 * 1 ->
        rmu = sqrt (1.1 * 1 / (1.5 * 1)) /\ 1.3 < rmu)
    /\ rmu * rmu = Rmax (1.1 * 1 / (1.5 * 1)) 1.69.
Proof. apply (calculate_rmu_floor_threshold 1 1.5 1); lra. Defined.

(** ** More on the coefficient assembly *)

(** X7. Which clamp acts is decided by the ratio
    (Hf / Rmu) * (CAR / Rpo) alone: for SDS, Ip >= 0 the result is
    Fp_min up to a ratio of 0.75, Fp_calc between 0.75 and 4, and Fp_max
    from 4 on. *)
Theorem calculate_fp_coeff_regimes (SDS Ip Wp Hf Rmu CAR Rpo : R) :
  0 <= SDS -> 0 <= Ip -> Rmu <> 0 -> Rpo <> 0 ->
  exists Fp Fp_calc Fp_min Fp_max,
    calculate_fp_coeff SDS Ip Wp Hf Rmu CAR Rpo = Ok (Fp, Fp_calc, Fp_min, Fp_max)
    /\ ((Hf / Rmu) * (CAR / Rpo) <= 0.75 -> Fp = Fp_min)
    /\ (0.75 <= (Hf / Rmu) * (CAR / Rpo) <= 4 -> Fp = Fp_calc)
    /\ (4 <= (Hf / Rmu) * (CAR / Rpo) -> Fp = Fp_max).
Proof.
  intros HSDS HIp HRmu HRpo.
  rewrite calculate_fp_coeff_ok by assumption.
  do 4 eexists. split; [reflexivity |].
  assert (Hp : 0 <= SDS * Ip) by (by apply Rmult_le_pos).
  set (ratio := Hf / Rmu * (CAR / Rpo)).
  replace (0.4 * SDS * Ip * (Hf / Rmu) * (CAR / Rpo))
    with (0.4 * (SDS * Ip) * ratio) by (unfold ratio; lra).
  replace (1.6 * SDS * Ip) with (1.6 * (SDS * Ip)) by lra.
  replace (0.3 * SDS * Ip) with (0.3 * (SDS * Ip)) by lra.
  set (p := SDS * Ip) in *.
  split; [| split].
  - intros Hr. rewrite Rmin_left by nra. apply Rmax_right. nra.
  - intros [Hlo Hhi]. rewrite Rmin_left by nra. apply Rmax_left. nra.
  - intros Hr. rewrite Rmin_right by nra. apply Rmax_left. nra.
Qed.

Lemma calculate_fp_coeff_regimes_witness :
  exists Fp Fp_calc Fp_min Fp_max,
    calculate_fp_coeff 1 1.5 1 3.5 1.3 5 1 = Ok (Fp, Fp_calc, Fp_min, Fp_max)
    /\ ((3.5 / 1.3) * (5 / 1) <= 0.75 -> Fp = Fp_min)
    /\ (0.75 <= (3.5 / 1.3) * (5 / 1) <= 4 -> Fp = Fp_calc)
    /\ (4 <= (3.5 / 1.3) * (5 / 1) -> Fp = Fp_max).
Proof. apply (calculate_fp_coeff_regimes 1 1.5 1 3.5 1.3 5 1); lra. Defined.

(** X8. When SDS * Ip is negative the two bounds are inverted and the
    result is Fp_min, which then lies above Fp_max, whatever Fp_calc
    is. *)
Theorem calculate_fp_coeff_negative_product (SDS Ip Wp Hf Rmu CAR Rpo : R) :
  SDS * Ip < 0 -> Rmu <> 0 -> Rpo <> 0 ->
  exists Fp Fp_calc Fp_min Fp_max,
    calculate_fp_coeff SDS Ip Wp Hf Rmu CAR Rpo = Ok (Fp, Fp_calc, Fp_min, Fp_max)
    /\ Fp = Fp_min /\ Fp_max < Fp.
Proof.
  intros Hneg HRmu HRpo.
  rewrite calculate_fp_coeff_ok by assumption.
  do 4 eexists. split; [reflexivity |].
  assert (Hlt : 1.6 * SDS * Ip < 0.3 * SDS * Ip) by nra.
  assert (HFp : Rmax (Rmin (0.4 * SDS * Ip * (Hf / Rmu) * (CAR / Rpo)) (1.6 * SDS * Ip))
                     (0.3 * SDS * Ip) = 0.3 * SDS * Ip).
  { apply Rmax_right. etransitivity; [apply Rmin_r | lra]. }
  rewrite HFp. split; [reflexivity | exact Hlt].
Qed.

Lemma calculate_fp_coeff_negative_product_witness :
  exists Fp Fp_calc Fp_min Fp_max,
    calculate_fp_coeff (-1) 1.5 1 3.5 1.3 1 1.5 = Ok (Fp, Fp_calc, Fp_min, Fp_max)
    /\ Fp = Fp_min /\ Fp_max < Fp.
Proof. apply (calculate_fp_coeff_negative_product (-1) 1.5 1 3.5 1.3 1 1.5); lra. Defined.

Lemma Rmin_scale (c a b : R) : 0 <= c -> Rmin (c * a) (c * b) = c * Rmin a b.
Proof.
  intros Hc. unfold Rmin.
  destruct (Rle_dec a b), (Rle_dec (c * a) (c * b)); nra.
Qed.

(** X9. The four results scale with SDS: multiplying SDS by c >= 0
    multiplies Fp, Fp_calc, Fp_min and Fp_max by c. *)
Theorem calculate_fp_coeff_scales (c SDS Ip Wp Hf Rmu CAR Rpo : R) :
  0 <= c -> Rmu <> 0 -> Rpo <> 0 ->
  exists Fp Fp_calc Fp_min Fp_max,
    calculate_fp_coeff SDS Ip Wp Hf Rmu CAR Rpo = Ok (Fp, Fp_calc, Fp_min, Fp_max)
    /\ calculate_fp_coeff (c * SDS) Ip Wp Hf Rmu CAR Rpo
       = Ok (c * Fp, c * Fp_calc, c * Fp_min, c * Fp_max).
Proof.
  intros Hc HRmu HRpo.
  rewrite !calculate_fp_coeff_ok by assumption.
  do 4 eexists. split; [reflexivity |].
  replace (0.4 * (c * SDS) * Ip * (Hf / Rmu) * (CAR / Rpo))
    with (c * (0.4 * SDS * Ip * (Hf / Rmu) * (CAR / Rpo))) by lra.
  replace (1.6 * (c * SDS) * Ip) with (c * (1.6 * SDS * Ip)) by lra.
  replace (0.3 * (c * SDS) * Ip) with (c * (0.3 * SDS * Ip)) by lra.
  by rewrite Rmin_scale, RmaxRmult.
Qed.

Lemma calculate_fp_coeff_scales_witness :
  exists Fp Fp_calc Fp_min Fp_max,
    calculate_fp_coeff 1 1.5 1 3.5 1.3 1 1.5 = Ok (Fp, Fp_calc, Fp_min, Fp_max)
    /\ calculate_fp_coeff (2 * 1) 1.5 1 3.5 1.3 1 1.5
       = Ok (2 * Fp, 2 * Fp_calc, 2 * Fp_min, 2 * Fp_max).
Proof. apply (calculate_fp_coeff_scales 2 1 1.5 1 3.5 1.3 1 1.5); lra. Defined.

(** ** More on the lookups *)

Lemma getitem_Some (r : row) (k : string) (v : pyval) :
  r !! k = Some v -> getitem r k = Ok v.
Proof. intros H. unfold getitem. by rewrite H. Qed.

Lemma getitem_None (r : row) (k : string) :
  r !! k = None -> getitem r k = Raise KeyError.
Proof. intros H. unfold getitem. by rewrite H. Qed.

(** Rows that do not match are skipped. *)
Lemma sfrs_loop_skip (pre rest : list row) (k : string) :
  Forall (other_name "SFRS" k) pre ->
  sfrs_loop (pre ++ rest) k = sfrs_loop rest k.
Proof.
  induction 1 as [| r pre' (s & Hs & Hne) _ IH]; simpl; [reflexivity |].
  rewrite (getitem_Some _ _ _ Hs). simpl.
  apply String.eqb_neq in Hne. by rewrite Hne.
Qed.

Lemma component_loop_skip (key : string) (pre rest : list row) (k location : string) :
  Forall (other_name key k) pre ->
  component_loop key (pre ++ rest) k location = component_loop key rest k location.
Proof.
  induction 1 as [| r pre' (s & Hs & Hne) _ IH]; simpl; [reflexivity |].
  rewrite (getitem_Some _ _ _ Hs). simpl.
  apply String.eqb_neq in Hne. by rewrite Hne.
Qed.

Lemma ta_loop_skip (py_pow : R -> pyval -> result pyval)
    (py_mul : pyval -> pyval -> result pyval)
    (pre rest : list row) (k : string) (hn : R) :
  Forall (other_name "Structure Type " k) pre ->
  ta_loop py_pow py_mul (pre ++ rest) k hn = ta_loop py_pow py_mul rest k hn.
Proof.
  induction 1 as [| r pre' (s & Hs & Hne) _ IH]; simpl; [reflexivity |].
  rewrite (getitem_Some _ _ _ Hs). simpl.
  apply String.eqb_neq in Hne. by rewrite Hne.
Qed.

(** X10. The first row whose name matches decides: whatever follows
    it, [get_sfrs_factors] returns that row's R and Omega. *)
Theorem get_sfrs_factors_first_match (pre post : list row) (r : row)
    (k : string) (vR vOmega : pyval) :
  Forall (other_name "SFRS" k) pre ->
  same_name "SFRS" k r ->
  r !! "R"%string = Some vR -> r !! "Omega"%string = Some vOmega ->
  get_sfrs_factors (pre ++ r :: post) (Some k) = Ok (vR, vOmega).
Proof.
  intros Hpre (s & Hs & Hn) HR HO. simpl.
  rewrite sfrs_loop_skip by assumption. simpl.
  rewrite (getitem_Some _ _ _ Hs). simpl.
  rewrite Hn, String.eqb_refl.
  by rewrite (getitem_Some _ _ _ HR), (getitem_Some _ _ _ HO).
Qed.

Lemma get_sfrs_factors_first_match_witness :
  get_sfrs_factors sfrs_twice (Some "steel frame"%string) = Ok (VNum 8, VNum 3).
Proof.
  apply (get_sfrs_factors_first_match [] _ _ "steel frame").
  - constructor.
  - exists "Steel Frame"%string. split; reflexivity.
  - reflexivity.
  - reflexivity.
Defined.

(** X11. A present key that matches no row of a table of named rows
    gives the factors (1.0, 1.0), the empty table included, whereas an
    absent key gives (None, None). *)
Theorem get_sfrs_factors_miss_or_absent (sfrs_data : list row) (k : string) :
  Forall (other_name "SFRS" k) sfrs_data ->
  get_sfrs_factors sfrs_data (Some k) = Ok (VNum 1, VNum 1)
  /\ get_sfrs_factors sfrs_data None = Ok (VNone, VNone).
Proof.
  intros Hall. split; [| reflexivity]. simpl.
  rewrite <- (app_nil_r sfrs_data). by rewrite sfrs_loop_skip.
Qed.

Lemma get_sfrs_factors_miss_or_absent_witness :
  get_sfrs_factors sfrs_steel (Some "Timber"%string) = Ok (VNum 1, VNum 1)
  /\ get_sfrs_factors sfrs_steel None = Ok (VNone, VNone).
Proof.
  apply (get_sfrs_factors_miss_or_absent sfrs_steel "Timber").
  repeat constructor. exists "Steel Frame"%string. split; [reflexivity | discriminate].
Defined.

(** The label chosen by [get_component_factors] is [label_of]. *)
Lemma get_component_factors_label (component_data : list row)
    (name location : string) :
  component_data <> [] ->
  get_component_factors component_data (Some name) location
  = component_loop (label_of component_data) component_data name location.
Proof. destruct component_data; [done | reflexivity]. Qed.

(** X12. On the first matching row, under whichever of the two labels
    the first row of the table carries, [get_component_factors] takes
    CAR from [CAR_above] for the flag "Supported Above Grade" and from
    [CAR_below] for any other flag, and puts 1.0 for a false CAR and
    1.5 for a false Rpo. *)
Theorem get_component_factors_first_match (pre post : list row) (r : row)
    (name location : string) (car rpo : pyval) :
  Forall (other_name (label_of (pre ++ r :: post)) name) pre ->
  same_name (label_of (pre ++ r :: post)) name r ->
  r !! (if String.eqb location "Supported Above Grade"
        then "CAR_above" else "CAR_below")%string = Some car ->
  r !! "Rpo"%string = Some rpo ->
  get_component_factors (pre ++ r :: post) (Some name) location
  = Ok (if truthy car then car else VNum 1, if truthy rpo then rpo else VNum 1.5).
Proof.
  intros Hpre (s & Hs & Hn) Hcar Hrpo.
  rewrite get_component_factors_label by (by destruct pre).
  rewrite component_loop_skip by assumption. simpl.
  rewrite (getitem_Some _ _ _ Hs). simpl.
  rewrite Hn, String.eqb_refl.
  destruct (String.eqb location "Supported Above Grade");
    by rewrite (getitem_Some _ _ _ Hcar), (getitem_Some _ _ _ Hrpo).
Qed.

Lemma get_component_factors_first_match_witness :
  get_component_factors arch_plural (Some " PARTITION "%string)
    "Supported At or Below Grade"
  = Ok (if truthy VNone then VNone else VNum 1,
        if truthy (VNum 0) then VNum 0 else VNum 1.5).
Proof.
  apply (get_component_factors_first_match [_] [] _ " PARTITION "
           "Supported At or Below Grade").
  - repeat constructor. exists "Ceiling"%string. split; [reflexivity | discriminate].
  - exists "Partition"%string. split; reflexivity.
  - reflexivity.
  - reflexivity.
Defined.

Lemma truthy_py_or (v d : pyval) : truthy d = true -> truthy (py_or v d) = true.
Proof. intros Hd. unfold py_or. by destruct (truthy v) eqn:Hv. Qed.

Lemma truthy_VNum (r : R) : r <> 0 -> truthy (VNum r) = true.
Proof. intros Hr. simpl. by destruct (Req_dec_T r 0). Qed.

Lemma truthy_as_num (v : pyval) (x : R) :
  truthy v = true -> as_num v = Ok x -> x <> 0.
Proof.
  destruct v as [| [] | r | s]; simpl; try discriminate.
  - intros _ [= <-]. lra.
  - destruct (Req_dec_T r 0); [discriminate |]. by intros _ [= <-].
Qed.

Lemma component_loop_truthy (key : string) (rows : list row)
    (name location : string) (car rpo : pyval) :
  component_loop key rows name location = Ok (car, rpo) ->
  truthy car = true /\ truthy rpo = true.
Proof.
  induction rows as [| r rest IH]; simpl.
  - intros [= <- <-]. split; apply truthy_VNum; lra.
  - destruct (getitem r key) as [v | e]; simpl; [| discriminate].
    destruct (strip_lower v) as [n | e]; simpl; [| discriminate].
    destruct (String.eqb n (PyStr.normalize name)); [| exact IH].
    destruct (if String.eqb location "Supported Above Grade"
              then getitem r "CAR_above" else getitem r "CAR_below") as [c | e];
      simpl; [| discriminate].
    destruct (getitem r "Rpo") as [p | e]; simpl; [| discriminate].
    intros [= <- <-]. split; apply truthy_py_or, truthy_VNum; lra.
Qed.

Lemma get_component_factors_truthy (component_data : list row)
    (component_name : option string) (location : string) (car rpo : pyval) :
  get_component_factors component_data component_name location = Ok (car, rpo) ->
  truthy car = true /\ truthy rpo = true.
Proof.
  destruct component_name as [name |]; simpl.
  - destruct (first_row component_data) as [r0 | e]; simpl; [| discriminate].
    apply component_loop_truthy.
  - intros [= <- <-]. split; apply truthy_VNum; lra.
Qed.

(** X13. [get_component_factors] never returns a false factor: on
    every table, key and flag, a returned CAR and Rpo are both true
    values, so a numeric Rpo is never zero and the caller's CAR / Rpo
    cannot divide by zero. *)
Theorem get_component_factors_never_false (component_data : list row)
    (component_name : option string) (location : string) (car rpo : pyval) :
  get_component_factors component_data component_name location = Ok (car, rpo) ->
  truthy car = true /\ truthy rpo = true
  /\ (forall x, as_num rpo = Ok x -> x <> 0).
Proof.
  intros Hcall.
  destruct (get_component_factors_truthy _ _ _ _ _ Hcall) as [Hc Hr].
  split; [exact Hc |]. split; [exact Hr |].
  intros x. by apply truthy_as_num.
Qed.

Lemma get_component_factors_never_false_witness :
  truthy (VNum 1) = true /\ truthy (VNum 1) = true
  /\ (forall x, as_num (VNum 1) = Ok x -> x <> 0).
Proof.
  apply (get_component_factors_never_false arch_ceiling (Some "Partition"%string)
           "Supported Above Grade").
  reflexivity.
Defined.

(** X14. The name label is read off the first row only: when the
    search reaches a row that lacks it, the lookup raises KeyError, even
    if that row names its component under the other label. *)
Theorem get_component_factors_mixed_labels (pre post : list row) (r : row)
    (name location : string) :
  pre <> [] ->
  Forall (other_name (label_of pre) name) pre ->
  r !! label_of pre = None ->
  get_component_factors (pre ++ r :: post) (Some name) location = Raise KeyError.
Proof.
  intros Hne Hpre Hr.
  rewrite get_component_factors_label by (by destruct pre).
  assert (Hl : label_of (pre ++ r :: post) = label_of pre) by (by destruct pre).
  rewrite Hl, component_loop_skip by assumption. simpl.
  by rewrite (getitem_None _ _ Hr).
Qed.

Lemma get_component_factors_mixed_labels_witness :
  get_component_factors arch_mixed (Some "Partition"%string) "Supported Above Grade"
  = Raise KeyError.
Proof.
  apply (get_component_factors_mixed_labels [_] [] _ "Partition"
           "Supported Above Grade").
  - discriminate.
  - repeat constructor. exists "Ceiling"%string. split; [reflexivity | discriminate].
  - reflexivity.
Defined.

(** Respelling the name of one row, under [key], without changing its
    normal form. *)
Lemma sfrs_loop_respell (pre post : list row) (r : row) (s s' k : string) :
  r !! "SFRS"%string = Some (VStr s) ->
  PyStr.normalize s = PyStr.normalize s' ->
  sfrs_loop (pre ++ <["SFRS"%string := VStr s']> r :: post) k
  = sfrs_loop (pre ++ r :: post) k.
Proof.
  intros Hs Hn. induction pre as [| r0 pre IH]; simpl.
  - unfold getitem. rewrite lookup_insert_eq, Hs. simpl. rewrite <- Hn.
    by rewrite !lookup_insert_ne.
  - by rewrite IH.
Qed.

Lemma component_loop_respell (key : string) (pre post : list row) (r : row)
    (s s' k location : string) :
  key = "Component"%string \/ key = "Components"%string ->
  r !! key = Some (VStr s) ->
  PyStr.normalize s = PyStr.normalize s' ->
  component_loop key (pre ++ <[key := VStr s']> r :: post) k location
  = component_loop key (pre ++ r :: post) k location.
Proof.
  intros Hkey Hs Hn. induction pre as [| r0 pre IH]; simpl.
  - unfold getitem. rewrite lookup_insert_eq, Hs. simpl. rewrite <- Hn.
    destruct Hkey as [-> | ->]; by rewrite !lookup_insert_ne.
  - by rewrite IH.
Qed.

Lemma ta_loop_respell (py_pow : R -> pyval -> result pyval)
    (py_mul : pyval -> pyval -> result pyval)
    (pre post : list row) (r : row) (s s' k : string) (hn : R) :
  r !! "Structure Type "%string = Some (VStr s) ->
  PyStr.normalize s = PyStr.normalize s' ->
  ta_loop py_pow py_mul (pre ++ <["Structure Type "%string := VStr s']> r :: post) k hn
  = ta_loop py_pow py_mul (pre ++ r :: post) k hn.
Proof.
  intros Hs Hn. induction pre as [| r0 pre IH]; simpl.
  - unfold getitem. rewrite lookup_insert_eq, Hs. simpl. rewrite <- Hn.
    by rewrite !lookup_insert_ne.
  - by rewrite IH.
Qed.

Lemma label_of_respell (pre post : list row) (r : row) (s s' : string) :
  r !! label_of (pre ++ r :: post) = Some (VStr s) ->
  label_of (pre ++ <[label_of (pre ++ r :: post) := VStr s']> r :: post)
  = label_of (pre ++ r :: post).
Proof.
  destruct pre as [| r0 pre]; simpl; [| reflexivity].
  unfold contains. destruct (r !! "Component"%string) as [v |] eqn:Hc.
  - intros _. by rewrite lookup_insert_eq.
  - intros _. by rewrite lookup_insert_ne, Hc.
Qed.

(** X15. The lookups are as insensitive to the spelling of the names
    in the table as to that of the key: respelling a row's name without
    changing its trimmed, lower-cased form changes no result of
    [get_sfrs_factors], [get_component_factors] or [calculate_ta]. *)
Theorem lookups_row_name_insensitive
    (py_pow : R -> pyval -> result pyval)
    (py_mul : pyval -> pyval -> result pyval)
    (pre post : list row) (r : row) (s s' : string)
    (key : option string) (location : string) (hn : R) :
  PyStr.normalize s = PyStr.normalize s' ->
  (r !! "SFRS"%string = Some (VStr s) ->
   get_sfrs_factors (pre ++ <["SFRS"%string := VStr s']> r :: post) key
   = get_sfrs_factors (pre ++ r :: post) key)
  /\ (r !! label_of (pre ++ r :: post) = Some (VStr s) ->
      get_component_factors
        (pre ++ <[label_of (pre ++ r :: post) := VStr s']> r :: post) key location
      = get_component_factors (pre ++ r :: post) key location)
  /\ (r !! "Structure Type "%string = Some (VStr s) ->
      calculate_ta py_pow py_mul
        (pre ++ <["Structure Type "%string := VStr s']> r :: post) key hn
      = calculate_ta py_pow py_mul (pre ++ r :: post) key hn).
Proof.
  intros Hn. destruct key as [k |]; [| by repeat split].
  split; [| split]; intros Hs.
  - simpl. by eapply sfrs_loop_respell.
  - rewrite !get_component_factors_label by (by destruct pre).
    rewrite (label_of_respell _ _ _ _ _ Hs).
    eapply component_loop_respell; [| exact Hs | exact Hn].
    unfold label_of. destruct (pre ++ r :: post) as [| r0 ?]; [by right |].
    destruct (contains r0 "Component"); [by left | by right].
  - simpl. by eapply ta_loop_respell.
Qed.

Lemma lookups_row_name_insensitive_witness :
  get_sfrs_factors ([] ++ <["SFRS"%string := VStr " STEEL frame "]>
                            {[ "SFRS"%string := VStr "Steel Frame";
                               "R"%string := VNum 8;
                               "Omega"%string := VNum 3 ]} :: [])
    (Some "steel frame"%string)
  = get_sfrs_factors sfrs_steel (Some "steel frame"%string).
Proof.
  apply (lookups_row_name_insensitive
           (fun _ _ => Raise TypeError) (fun _ _ => Raise TypeError)
           [] [] _ "Steel Frame" " STEEL frame " (Some "steel frame"%string)
           "Supported Above Grade" 60).
  - reflexivity.
  - reflexivity.
Defined.

(** [calculate_ta] on the first matching row returns the row's Ct
    and x with Ta the value of Ct * hn ** x; a key matching no row of a
    table of named rows gives (None, None, None), like an absent key. *)
Lemma calculate_ta_first_match_or_miss
    (py_pow : R -> pyval -> result pyval)
    (py_mul : pyval -> pyval -> result pyval)
    (pre post : list row) (r : row) (k : string) (hn : R) (Ct x p Ta : pyval) :
  Forall (other_name "Structure Type " k) pre ->
  (same_name "Structure Type " k r ->
   r !! "Ct"%string = Some Ct -> r !! "x"%string = Some x ->
   py_pow hn x = Ok p -> py_mul Ct p = Ok Ta ->
   calculate_ta py_pow py_mul (pre ++ r :: post) (Some k) hn = Ok (Ta, Ct, x))
  /\ calculate_ta py_pow py_mul pre (Some k) hn = Ok (VNone, VNone, VNone)
  /\ calculate_ta py_pow py_mul pre None hn = Ok (VNone, VNone, VNone).
Proof.
  intros Hpre. split; [| split]; [| | reflexivity].
  - intros (s & Hs & Hn) HCt Hx Hp HTa. simpl.
    rewrite ta_loop_skip by assumption. simpl.
    rewrite (getitem_Some _ _ _ Hs). simpl.
    rewrite Hn, String.eqb_refl.
    rewrite (getitem_Some _ _ _ HCt), (getitem_Some _ _ _ Hx). simpl.
    rewrite Hp. simpl. by rewrite HTa.
  - simpl. rewrite <- (app_nil_r pre). by rewrite ta_loop_skip.
Qed.


Lemma numeric_ops_num : numeric_ops num_pow num_mul.
Proof. split; reflexivity. Qed.

(** ** The script, from widgets to coefficient *)

(** X16. With operators that act on numbers as arithmetic does, a
    matched period row with Ct > 0 and a positive height give a positive
    period Ta = Ct * hn^x, so [calculate_hf] takes its third branch, not
    the degenerate-input guard. *)
Theorem calculate_ta_positive_period
    (py_pow : R -> pyval -> result pyval)
    (py_mul : pyval -> pyval -> result pyval)
    (pre post : list row) (r : row) (k : string) (hn z Ct x : R) :
  numeric_ops py_pow py_mul ->
  Forall (other_name "Structure Type " k) pre ->
  same_name "Structure Type " k r ->
  r !! "Ct"%string = Some (VNum Ct) -> r !! "x"%string = Some (VNum x) ->
  0 < Ct -> 0 < hn ->
  calculate_ta py_pow py_mul (pre ++ r :: post) (Some k) hn
  = Ok (VNum (Ct * Rpower hn x), VNum Ct, VNum x)
  /\ 0 < Ct * Rpower hn x
  /\ exists Hf a1 a2,
       calculate_hf z hn (Some (Ct * Rpower hn x)) = Ok (HfTuple Hf (Some a1) (Some a2)).
Proof.
  intros [Hpow Hmul] Hpre (s & Hs & Hn) HCt Hx HCtpos Hhn.
  assert (Hpos : 0 < Ct * Rpower hn x).
  { apply Rmult_lt_0_compat; [assumption |]. unfold Rpower. apply exp_pos. }
  split; [| split; [exact Hpos |]].
  - simpl. rewrite ta_loop_skip by assumption. simpl.
    rewrite (getitem_Some _ _ _ Hs). simpl.
    rewrite Hn, String.eqb_refl.
    rewrite (getitem_Some _ _ _ HCt), (getitem_Some _ _ _ Hx). simpl.
    rewrite Hpow by assumption. simpl. by rewrite Hmul.
  - destruct (calculate_hf_present z hn _ Hpos Hhn) as (Hf & a1 & a2 & Hcall & _).
    by exists Hf, a1, a2.
Qed.

Lemma calculate_ta_positive_period_witness :
  calculate_ta num_pow num_mul period_other
    (Some "All other structural systems"%string) 60
  = Ok (VNum (0.02 * Rpower 60 0.75), VNum 0.02, VNum 0.75)
  /\ 0 < 0.02 * Rpower 60 0.75
  /\ exists Hf a1 a2,
       calculate_hf 24 60 (Some (0.02 * Rpower 60 0.75))
       = Ok (HfTuple Hf (Some a1) (Some a2)).
Proof.
  apply (calculate_ta_positive_period num_pow num_mul [] [] _
           "All other structural systems" 60 24 0.02 0.75).
  - exact numeric_ops_num.
  - constructor.
  - exists "All other structural systems"%string. split; reflexivity.
  - reflexivity.
  - reflexivity.
  - lra.
  - lra.
Defined.

Lemma floor_height_pos (occ : occupancy) : (0 < floor_height occ)%Z.
Proof. destruct occ; reflexivity. Qed.

Lemma importance_pos (occ : occupancy) : 1 <= importance occ <= 1.5.
Proof. destruct occ; simpl; lra. Qed.

(** The heights the script derives from the two floor inputs. *)
Lemma app_heights (occ : occupancy) (num_floors highest_floor : Z) :
  (1 <= highest_floor <= num_floors)%Z ->
  0 < IZR (highest_floor * floor_height occ)
      <= IZR (num_floors * floor_height occ)
  /\ 12 <= IZR (num_floors * floor_height occ).
Proof.
  intros [Hlo Hhi]. pose proof (floor_height_pos occ) as Hf.
  split; [split |].
  - apply IZR_lt. lia.
  - apply IZR_le. nia.
  - apply IZR_le. destruct occ; simpl; lia.
Qed.

(** X17. For floor inputs within the widgets' ranges
    (1 <= highest_floor <= num_floors) the attachment height is positive
    and at most the building height, which is at least 12; and with no
    period the amplification is 1 + 2.5 * highest_floor / num_floors,
    the same for both occupancies. *)
Theorem app_hf_floor_ratio (occ : occupancy) (num_floors highest_floor : Z) :
  (1 <= highest_floor <= num_floors)%Z ->
  0 < IZR (highest_floor * floor_height occ)
      <= IZR (num_floors * floor_height occ)
  /\ calculate_hf (IZR (highest_floor * floor_height occ))
                  (IZR (num_floors * floor_height occ)) None
     = Ok (HfTuple (1 + 2.5 * (IZR highest_floor / IZR num_floors)) None None).
Proof.
  intros Hr. destruct (app_heights occ _ _ Hr) as [[Hz Hzh] Hh].
  split; [by split |].
  rewrite calculate_hf_absent by lra.
  case_decide; [lra |]. do 3 f_equal.
  rewrite !mult_IZR.
  assert (Hf : 0 < IZR (floor_height occ)) by (apply IZR_lt, floor_height_pos).
  assert (Hn : 0 < IZR num_floors) by (apply IZR_lt; lia).
  field. lra.
Qed.

Lemma app_hf_floor_ratio_witness :
  0 < IZR (2 * floor_height Hospital) <= IZR (5 * floor_height Hospital)
  /\ calculate_hf (IZR (2 * floor_height Hospital))
                  (IZR (5 * floor_height Hospital)) None
     = Ok (HfTuple (1 + 2.5 * (IZR 2 / IZR 5)) None None).
Proof. apply (app_hf_floor_ratio Hospital 5 2). lia. Defined.

(** X18. When the building material is "Other/Unknown", or its system
    name matches no row of the SFRS table, the script's Rmu is the floor
    1.3, for either occupancy. *)
Theorem app_rmu_default (sfrs_data : list row) (occ : occupancy) (b : building_type) :
  (forall s, sfrs_mapping b = Some s -> Forall (other_name "SFRS" s) sfrs_data) ->
  exists R_ Omega_0,
    building_factors sfrs_data b = Ok (VNum R_, VNum Omega_0)
    /\ calculate_rmu R_ (importance occ) Omega_0 = Ok 1.3.
Proof.
  intros Hmiss. unfold building_factors.
  destruct (sfrs_mapping b) as [s |] eqn:Hmap.
  - assert (Hs : String.eqb s "" = false) by (destruct b; by inversion Hmap).
    rewrite Hs. simpl.
    rewrite <- (app_nil_r sfrs_data), sfrs_loop_skip by auto. simpl.
    exists 1, 1. split; [reflexivity |].
    pose proof (importance_pos occ) as [Hi1 Hi2].
    rewrite calculate_rmu_nonzero by lra.
    assert (Hinv : 0 < / (importance occ * 1)) by (apply Rinv_0_lt_compat; lra).
    assert (Hone : importance occ * 1 * / (importance occ * 1) = 1) by (apply Rinv_r; lra).
    case_decide as Hneg; [unfold Rdiv in Hneg; nra |].
    f_equal. apply Rmax_right.
    replace 1.3 with (sqrt (1.3 * 1.3)) by (apply sqrt_square; lra).
    apply sqrt_le_1_alt. unfold Rdiv. nra.
  - exists 0, 0. split; [reflexivity |]. apply calculate_rmu_zero. lra.
Qed.

Lemma app_rmu_default_witness :
  exists R_ Omega_0,
    building_factors sfrs_steel OtherUnknown = Ok (VNum R_, VNum Omega_0)
    /\ calculate_rmu R_ (importance Hospital) Omega_0 = Ok 1.3.
Proof.
  apply (app_rmu_default sfrs_steel Hospital OtherUnknown).
  intros s [=].
Defined.

Lemma clamp_between (x lo hi : R) : lo <= hi -> lo <= Rmax (Rmin x hi) lo <= hi.
Proof.
  intros Hle. split; [apply Rmax_r |].
  apply Rmax_lub; [apply Rmin_r | exact Hle].
Qed.

(** On non-negative factors the demand reduction returns, at or above
    the floor. *)
Lemma calculate_rmu_returns (R_ Ie Omega_0 : R) :
  0 <= R_ -> 0 <= Ie * Omega_0 ->
  exists rmu, calculate_rmu R_ Ie Omega_0 = Ok rmu /\ 1.3 <= rmu.
Proof.
  intros HR Hd. destruct (decide (Ie * Omega_0 = 0)) as [H0 | Hne].
  - exists 1.3. split; [by apply calculate_rmu_zero | lra].
  - rewrite calculate_rmu_nonzero by assumption.
    assert (Hinv : 0 < / (Ie * Omega_0)) by (apply Rinv_0_lt_compat; lra).
    case_decide as Hneg; [unfold Rdiv in Hneg; nra |].
    eexists. split; [reflexivity | apply Rmax_r].
Qed.

(** One step of the script: pass a returned value to what follows,
    leaving the engine's calls folded. *)
Ltac script_step :=
  cbn -[get_sfrs_factors get_component_factors calculate_ta calculate_hf
        calculate_rmu calculate_fp_coeff building_factors opt_num
        floor_height importance component_of Z.mul].

(** X19. One run of the script on numeric tables never raises and
    ends within the bounds: for floor inputs in range, SDS >= 0,
    non-negative R and Omega_0 from the SFRS lookup, numeric component
    factors, and a period that is absent or positive, the run returns
    (Fp, Fp_calc, Fp_min, Fp_max) with Fp_min = 0.3 SDS Ip,
    Fp_max = 1.6 SDS Ip and Fp_min <= Fp <= Fp_max. *)
Theorem app_results_in_bounds
    (py_pow : R -> pyval -> result pyval)
    (py_mul : pyval -> pyval -> result pyval)
    (sfrs_data arch_components period_data : list row)
    (occ : occupancy) (b : building_type) (num_floors highest_floor : Z)
    (p : partition_height) (SDS R_ Omega_0 car rpo : R) (vTa vCt vx : pyval) :
  (1 <= highest_floor <= num_floors)%Z ->
  0 <= SDS ->
  building_factors sfrs_data b = Ok (VNum R_, VNum Omega_0) ->
  0 <= R_ -> 0 <= Omega_0 ->
  get_component_factors arch_components (Some (component_of p))
    "Supported Above Grade" = Ok (VNum car, VNum rpo) ->
  calculate_ta py_pow py_mul period_data
    (Some "All other structural systems"%string)
    (IZR (num_floors * floor_height occ)) = Ok (vTa, vCt, vx) ->
  (vTa = VNone \/ exists Ta, vTa = VNum Ta /\ 0 < Ta) ->
  exists Fp Fp_calc Fp_min Fp_max,
    app_results py_pow py_mul sfrs_data arch_components period_data
      occ b num_floors highest_floor p SDS = Ok (Fp, Fp_calc, Fp_min, Fp_max)
    /\ Fp_min = 0.3 * SDS * importance occ
    /\ Fp_max = 1.6 * SDS * importance occ
    /\ Fp_min <= Fp <= Fp_max.
Proof.
  intros Hfloors HSDS Hbf HR HOm Hcomp Hta HvTa.
  destruct (app_heights occ _ _ Hfloors) as [[Hz Hzh] Hh].
  pose proof (importance_pos occ) as [Hi1 Hi2].
  assert (Hrpo : rpo <> 0).
  { destruct (get_component_factors_truthy _ _ _ _ _ Hcomp) as [_ Ht].
    by apply (truthy_as_num (VNum rpo)). }
  destruct (calculate_rmu_returns R_ (importance occ) Omega_0) as (rmu & Hrmu & Hfloor);
    [lra | nra |].
  assert (Hhf : exists Hf a1 a2 Ta,
             opt_num vTa = Ok Ta
             /\ calculate_hf (IZR (highest_floor * floor_height occ))
                  (IZR (num_floors * floor_height occ)) Ta = Ok (HfTuple Hf a1 a2)).
  { destruct HvTa as [-> | (Ta & -> & HTa)].
    - do 3 eexists. exists None. split; [reflexivity |].
      apply calculate_hf_absent. lra.
    - destruct (calculate_hf_present (IZR (highest_floor * floor_height occ))
                  (IZR (num_floors * floor_height occ)) Ta) as (Hf & a1 & a2 & Hc & _);
        [lra | lra |].
      exists Hf, (Some a1), (Some a2), (Some Ta). by split. }
  destruct Hhf as (Hf & a1 & a2 & Ta & Hopt & Hcall).
  unfold app_results. rewrite Hbf. script_step.
  destruct (decide (0 < IZR (highest_floor * floor_height occ))); [| lra].
  rewrite Hcomp. script_step. rewrite Hta. script_step.
  rewrite Hopt. script_step. rewrite Hcall. script_step.
  rewrite Hrmu. script_step.
  rewrite calculate_fp_coeff_ok by lra.
  do 4 eexists. split; [reflexivity |].
  split; [reflexivity |]. split; [reflexivity |].
  apply clamp_between. nra.
Qed.

Lemma app_results_in_bounds_witness :
  exists Fp Fp_calc Fp_min Fp_max,
    app_results num_pow num_mul sfrs_steel arch_ceiling []
      Hospital OtherUnknown 5 5 Over9ft 1 = Ok (Fp, Fp_calc, Fp_min, Fp_max)
    /\ Fp_min = 0.3 * 1 * importance Hospital
    /\ Fp_max = 1.6 * 1 * importance Hospital
    /\ Fp_min <= Fp <= Fp_max.
Proof.
  apply (app_results_in_bounds num_pow num_mul sfrs_steel arch_ceiling []
           Hospital OtherUnknown 5 5 Over9ft 1 0 0 1 1 VNone VNone VNone).
  - lia.
  - lra.
  - reflexivity.
  - lra.
  - lra.
  - reflexivity.
  - reflexivity.
  - by left.
Defined.

(** X20. Whenever the degenerate-input guard of [calculate_hf] fires
    (Ta present with Ta <= 0 or h <= 0), the results section, having
    found its component factors, ends in TypeError: the guard's bare
    number cannot be unpacked. *)
Theorem results_section_guard_type_error (arch_components : list row)
    (component_name : option string) (z h Ta SDS Ip Ie R_ Omega_0 : R)
    (CAR Rpo : pyval) :
  Ta <= 0 \/ h <= 0 ->
  get_component_factors arch_components component_name
    (if decide (0 < z) then "Supported Above Grade"%string
     else "Supported At or Below Grade"%string) = Ok (CAR, Rpo) ->
  results_section arch_components component_name z h (Some Ta) SDS Ip Ie R_ Omega_0
  = Raise TypeError.
Proof.
  intros Hg Hcomp. unfold results_section.
  rewrite Hcomp. script_step. by rewrite calculate_hf_guard.
Qed.

Lemma results_section_guard_type_error_witness :
  results_section arch_ceiling None 30 60 (Some 0) 1 1.5 1.5 8 3 = Raise TypeError.
Proof.
  apply (results_section_guard_type_error arch_ceiling None 30 60 0 1 1.5 1.5 8 3
           (VNum 1) (VNum 1)).
  - lra.
  - reflexivity.
Defined.

(** ** The cached SDS *)

Section SdsCacheProperties.

Variable fetch : R -> R -> string -> string -> option R.
Variable fmt_location : R -> R -> string.

(** A step keeps the cache coherent and yields only the remote value
    for its own parameters. *)
Lemma sds_step_coherent (geo : option (R * R)) (occ : occupancy) (s : sds_cache) :
  sds_coherent fetch s ->
  sds_coherent fetch (sds_step fetch fmt_location geo occ s).1
  /\ forall v, (sds_step fetch fmt_location geo occ s).2 = Some v ->
       exists lat lon, geo = Some (lat, lon)
         /\ fetch lat lon (risk_category occ) "Default" = Some v.
Proof.
  intros Hs. unfold sds_step.
  destruct geo as [[lat lon] |]; [| split; [exact Hs | discriminate]].
  destruct (sds_value s) as [v0 |] eqn:Hv.
  - case_bool_decide as Hp.
    + split; [exact Hs |]. simpl. intros v Hv'. exists lat, lon.
      split; [reflexivity |]. apply Hs; [congruence | exact Hp].
    + destruct (fetch lat lon (risk_category occ) "Default") as [w |] eqn:Hf; simpl.
      * split; [| intros v [= <-]; by exists lat, lon].
        intros v la lo ri si [= <-] [= <- <- <- <-]. exact Hf.
      * split; [exact Hs | discriminate].
  - destruct (fetch lat lon (risk_category occ) "Default") as [w |] eqn:Hf; simpl.
    + split; [| intros v [= <-]; by exists lat, lon].
      intros v la lo ri si [= <-] [= <- <- <- <-]. exact Hf.
    + split; [exact Hs | discriminate].
Qed.

Lemma sds_runs_coherent (inputs : list (option (R * R) * occupancy)) (s : sds_cache) :
  sds_coherent fetch s -> sds_coherent fetch (sds_runs fetch fmt_location inputs s).
Proof.
  revert s. induction inputs as [| [geo occ] rest IH]; intros s Hs; simpl.
  - exact Hs.
  - apply IH. by apply sds_step_coherent.
Qed.

(** X21. Whatever runs came before, starting from the empty cache, the
    SDS a run uses is the remote value for that run's own latitude,
    longitude and risk category: a value cached for other parameters
    is never served. *)
Theorem sds_never_stale (inputs : list (option (R * R) * occupancy))
    (geo : option (R * R)) (occ : occupancy) (v : R) :
  (sds_step fetch fmt_location geo occ
     (sds_runs fetch fmt_location inputs (SdsCache None None None))).2 = Some v ->
  exists lat lon, geo = Some (lat, lon)
    /\ fetch lat lon (risk_category occ) "Default" = Some v.
Proof.
  apply sds_step_coherent, sds_runs_coherent.
  intros ? ? ? ? ? [=].
Qed.

(** X22. A run whose fetch raises, or that has no coordinates, yields
    no SDS and leaves the three cache keys as they were. *)
Theorem sds_step_failure_keeps_cache (geo : option (R * R)) (occ : occupancy)
    (s : sds_cache) :
  (sds_step fetch fmt_location geo occ s).2 = None ->
  (sds_step fetch fmt_location geo occ s).1 = s.
Proof.
  unfold sds_step. destruct geo as [[lat lon] |]; [| reflexivity].
  destruct (sds_value s) as [v0 |] eqn:Hv.
  - case_bool_decide; [reflexivity |].
    by destruct (fetch lat lon (risk_category occ) "Default").
  - by destruct (fetch lat lon (risk_category occ) "Default").
Qed.

End SdsCacheProperties.

Lemma sds_never_stale_witness :
  exists lat lon, Some (37.8, -122.27) = Some (lat, lon)
    /\ (fun _ _ _ _ => Some 1.2) lat lon (risk_category Hospital) "Default"%string
       = Some 1.2.
Proof.
  apply (sds_never_stale (fun _ _ _ _ => Some 1.2) (fun _ _ => ""%string)
           [(Some (37.8, -122.27), Office)] (Some (37.8, -122.27)) Hospital 1.2).
  simpl. rewrite bool_decide_eq_false_2 by (intros [=]). reflexivity.
Defined.

Lemma sds_step_failure_keeps_cache_witness :
  (sds_step (fun _ _ _ _ => None) (fun _ _ => ""%string) (Some (37.8, -122.27))
     Hospital (SdsCache (Some 1.2) None None)).1 = SdsCache (Some 1.2) None None.
Proof.
  apply (sds_step_failure_keeps_cache (fun _ _ _ _ => None) (fun _ _ => ""%string)).
  reflexivity.
Defined.

(** X23. Once a run has obtained an SDS, a further run with the same
    coordinates and occupancy returns the same SDS from the cache
    without fetching, whatever the remote service would answer then, and
    leaves the cache unchanged. *)
Theorem sds_cache_hit (fetch fetch' : R -> R -> string -> string -> option R)
    (fmt_location fmt_location' : R -> R -> string)
    (geo : option (R * R)) (occ : occupancy) (s : sds_cache) (v : R) :
  (sds_step fetch fmt_location geo occ s).2 = Some v ->
  sds_step fetch' fmt_location' geo occ (sds_step fetch fmt_location geo occ s).1
  = ((sds_step fetch fmt_location geo occ s).1, Some v).
Proof.
  unfold sds_step. destruct geo as [[lat lon] |]; [| discriminate].
  destruct (sds_value s) as [v0 |] eqn:Hv.
  - case_bool_decide as Hp.
    + simpl. intros [= <-]. rewrite Hv. by rewrite bool_decide_eq_true_2.
    + destruct (fetch lat lon (risk_category occ) "Default") as [w |]; simpl;
        [| discriminate].
      intros [= <-]. by rewrite bool_decide_eq_true_2.
  - destruct (fetch lat lon (risk_category occ) "Default") as [w |]; simpl;
      [| discriminate].
    intros [= <-]. by rewrite bool_decide_eq_true_2.
Qed.

Lemma sds_cache_hit_witness :
  sds_step (fun _ _ _ _ => None) (fun _ _ => "x"%string) (Some (37.8, -122.27)) Hospital
    (sds_step (fun _ _ _ _ => Some 1.2) (fun _ _ => ""%string)
       (Some (37.8, -122.27)) Hospital (SdsCache None None None)).1
  = ((sds_step (fun _ _ _ _ => Some 1.2) (fun _ _ => ""%string)
       (Some (37.8, -122.27)) Hospital (SdsCache None None None)).1, Some 1.2).
Proof.
  apply (sds_cache_hit (fun _ _ _ _ => Some 1.2) (fun _ _ _ _ => None)).
  reflexivity.
Defined.

(** ** Authentication *)

Lemma any_allowed_strings (user_email user_upn : string) (names : list string) :
  any_allowed user_email user_upn (OStr <$> names)
  = Ok (existsb (fun a => String.eqb user_email (PyStr.lower a)
                          || String.eqb user_upn (PyStr.lower a)) names).
Proof.
  induction names as [| a names IH]; simpl; [reflexivity |].
  destruct (String.eqb user_email (PyStr.lower a)); simpl; [reflexivity |].
  destruct (String.eqb user_upn (PyStr.lower a)); simpl; [reflexivity |].
  exact IH.
Qed.

(** X24. With no allow-list — no [microsoft] section, no
    [allowed_users] entry, or an entry that is empty or otherwise false
    — every user is authorized, whatever the user information is. *)
Theorem is_user_authorized_no_list (secrets : gmap string pyobj) (user_info : pyobj) :
  (secrets !! "microsoft"%string = None
   \/ exists m, secrets !! "microsoft"%string = Some (ODict m)
        /\ obj_truthy (default (OList []) (m !! "allowed_users"%string)) = false) ->
  is_user_authorized secrets user_info = Ok true.
Proof.
  unfold is_user_authorized.
  intros [-> | (m & -> & Hfalse)]; simpl; [reflexivity |].
  by rewrite Hfalse.
Qed.

Lemma is_user_authorized_no_list_witness :
  is_user_authorized (secrets_allowing (OList [])) ONone = Ok true.
Proof.
  apply (is_user_authorized_no_list (secrets_allowing (OList [])) ONone).
  right. eexists. split; reflexivity.
Defined.

(** X25. With a non-empty allow-list of strings and text (or missing)
    mail and userPrincipalName fields, the user is authorized exactly
    when some entry equals the mail or the principal name up to letter
    case. *)
Theorem is_user_authorized_listed (secrets m u : gmap string pyobj)
    (names : list string) (mail upn : string) :
  secrets !! "microsoft"%string = Some (ODict m) ->
  m !! "allowed_users"%string = Some (OList (OStr <$> names)) ->
  names <> [] ->
  default (OStr "") (u !! "mail"%string) = OStr mail ->
  default (OStr "") (u !! "userPrincipalName"%string) = OStr upn ->
  exists b,
    is_user_authorized secrets (ODict u) = Ok b
    /\ (b = true <->
        exists a, In a names
          /\ (PyStr.lower a = PyStr.lower mail \/ PyStr.lower a = PyStr.lower upn)).
Proof.
  intros Hsec Hlist Hne Hmail Hupn. unfold is_user_authorized.
  rewrite Hsec. simpl. rewrite Hlist. simpl.
  destruct names as [| a0 names']; [done |]. simpl obj_truthy. simpl negb.
  cbn [obj_get]. rewrite Hmail, Hupn. cbn -[any_allowed fmap].
  change (OStr a0 :: (OStr <$> names')) with (OStr <$> (a0 :: names')).
  rewrite any_allowed_strings.
  eexists. split; [reflexivity |].
  rewrite existsb_exists. split.
  - intros (a & Hin & Hor). exists a. split; [exact Hin |].
    apply orb_prop in Hor as [H | H]; apply String.eqb_eq in H; auto.
  - intros (a & Hin & Hor). exists a. split; [exact Hin |].
    apply orb_true_intro.
    destruct Hor as [H | H]; [left | right]; apply String.eqb_eq; auto.
Qed.

Lemma is_user_authorized_listed_witness :
  exists b,
    is_user_authorized (secrets_allowing (OList (OStr <$> ["Ana@Firm.com"%string])))
      (ODict {[ "userPrincipalName"%string := OStr "ANA@firm.COM" ]}) = Ok b
    /\ (b = true <->
        exists a, In a ["Ana@Firm.com"%string]
          /\ (PyStr.lower a = PyStr.lower "" \/ PyStr.lower a = PyStr.lower "ANA@firm.COM")).
Proof.
  apply (is_user_authorized_listed
           (secrets_allowing (OList (OStr <$> ["Ana@Firm.com"%string])))
           {[ "allowed_users"%string := OList (OStr <$> ["Ana@Firm.com"%string]) ]}
           {[ "userPrincipalName"%string := OStr "ANA@firm.COM" ]}
           ["Ana@Firm.com"%string] "" "ANA@firm.COM").
  - reflexivity.
  - reflexivity.
  - discriminate.
  - reflexivity.
  - reflexivity.
Defined.

(** X26. With an allow-list in force, user information whose [mail]
    field is present but not text (the [null] of an account without a
    mailbox) makes the check raise AttributeError, whatever the
    principal name is. *)
Theorem is_user_authorized_null_mail (secrets m u : gmap string pyobj)
    (allowed_users v : pyobj) :
  secrets !! "microsoft"%string = Some (ODict m) ->
  m !! "allowed_users"%string = Some allowed_users ->
  obj_truthy allowed_users = true ->
  u !! "mail"%string = Some v ->
  (forall s, v <> OStr s) ->
  is_user_authorized secrets (ODict u) = Raise AttributeError.
Proof.
  intros Hsec Hlist Htrue Hmail Hv. unfold is_user_authorized.
  rewrite Hsec. simpl. rewrite Hlist. simpl. rewrite Htrue. simpl.
  rewrite Hmail. simpl.
  destruct v; try reflexivity. by destruct (Hv s).
Qed.

Lemma is_user_authorized_null_mail_witness :
  is_user_authorized (secrets_allowing (OList [OStr "ana@firm.com"]))
    (ODict {[ "mail"%string := ONone;
              "userPrincipalName"%string := OStr "ana@firm.com" ]})
  = Raise AttributeError.
Proof.
  apply (is_user_authorized_null_mail
           (secrets_allowing (OList [OStr "ana@firm.com"]))
           {[ "allowed_users"%string := OList [OStr "ana@firm.com"] ]}
           {[ "mail"%string := ONone;
              "userPrincipalName"%string := OStr "ana@firm.com" ]}
           (OList [OStr "ana@firm.com"]) ONone).
  - reflexivity.
  - reflexivity.
  - reflexivity.
  - reflexivity.
  - discriminate.
Defined.

(** When [login_ui] falls through. *)
Lemma login_ui_falls_through (e : env) (s : session) (query_params : gmap string string) :
  (has_access (init_session s) ->
   login_ui e s query_params = (init_session s, query_params, Continue))
  /\ (forall s' q', login_ui e s query_params = (s', q', Continue) ->
        has_access s' /\ s' = init_session s /\ q' = query_params).
Proof.
  unfold login_ui, has_access.
  destruct (default false (authenticated (init_session s))
            || default false (guest_mode (init_session s))) eqn:Hflag.
  - split; [reflexivity |]. intros s' q' [= <- <-].
    split; [| done]. simpl in *.
    apply orb_prop in Hflag as [-> | ->]; [by left | by right].
  - split.
    + intros Hacc. exfalso. simpl in *.
      apply orb_false_elim in Hflag as [H1 H2].
      destruct Hacc as [[= H] | [= H]]; congruence.
    + intros s' q'.
      repeat (first [ discriminate
                    | match goal with
                      | |- context [if ?b then _ else _] => destruct b
                      | |- context [match ?x with _ => _ end] => destruct x
                      end ]).
Qed.

(** X27. [login_ui] falls through to the page exactly when the
    session, once its missing keys are set, is signed in or in guest
    mode; it then changes nothing but those missing keys.  Every other
    path ends in [st.stop()], [st.rerun()] or an exception. *)
Theorem login_ui_gate (e : env) (s : session) (query_params : gmap string string) :
  (has_access (init_session s) ->
   login_ui e s query_params = (init_session s, query_params, Continue))
  /\ (forall s' q', login_ui e s query_params = (s', q', Continue) ->
        has_access s' /\ s' = init_session s /\ q' = query_params).
Proof. apply login_ui_falls_through. Qed.

Lemma login_ui_gate_witness :
  login_ui (Env ∅ false None None false false false false)
    (Session None None None (Some true)) ∅
  = (init_session (Session None None None (Some true)), ∅, Continue).
Proof.
  apply (login_ui_gate (Env ∅ false None None false false false false)
           (Session None None None (Some true)) ∅).
  by right.
Defined.

(** How [login_ui] signs a session in. *)
Lemma login_ui_signs_in (e : env) (s s' : session)
    (query_params q' : gmap string string) (o : outcome) :
  login_ui e s query_params = (s', q', o) ->
  authenticated s <> Some true ->
  authenticated s' = Some true ->
  exists code token tok reply info,
    query_params !! "code"%string = Some code
    /\ token_result e = Some token
    /\ token !! "access_token"%string = Some tok
    /\ graph_reply e = Some reply
    /\ status_code reply = 200%Z
    /\ json_body reply = Some info
    /\ obj_truthy info = true
    /\ is_user_authorized (secrets e) info = Ok true
    /\ s' = Session (Some true) (Some info) (Some tok)
              (Some (default false (guest_mode s)))
    /\ q' = ∅ /\ o = Rerun.
Proof.
  intros Hcall Hbefore Hafter.
  assert (Hinit : authenticated (init_session s) <> Some true).
  { simpl. destruct (authenticated s) as [[] |]; simpl; congruence. }
  unfold login_ui in Hcall.
  destruct (default false (authenticated (init_session s))
            || default false (guest_mode (init_session s)));
    [injection Hcall as <- <- <-; contradiction |].
  destruct (negb (ms_auth_ok e));
    [injection Hcall as <- <- <-; contradiction |].
  destruct (query_params !! "code"%string) as [code |] eqn:Hcode.
  - destruct (token_result e) as [token |] eqn:Htoken;
      [| injection Hcall as <- <- <-; contradiction].
    destruct (token !! "access_token"%string) as [tok |] eqn:Htok;
      [| injection Hcall as <- <- <-; contradiction].
    destruct (graph_reply e) as [reply |] eqn:Hreply; simpl in Hcall;
      [| injection Hcall as <- <- <-; contradiction].
    unfold get_user_info in Hcall.
    destruct (decide (status_code reply = 200%Z)) as [Hstatus | Hstatus].
    + destruct (json_body reply) as [info |] eqn:Hbody;
        [| injection Hcall as <- <- <-; contradiction].
      destruct (obj_truthy info) eqn:Htruthy;
        [| injection Hcall as <- <- <-; contradiction].
      destruct (is_user_authorized (secrets e) info) as [[] | ex] eqn:Hauth;
        try (injection Hcall as <- <- <-; contradiction).
      injection Hcall as <- <- <-.
      exists code, token, tok, reply, info. by repeat split.
    + simpl in Hcall. injection Hcall as <- <- <-. contradiction.
  - destruct (negb (auth_url_ok e));
      [injection Hcall as <- <- <-; contradiction |].
    destruct (guest_clicked e); injection Hcall as <- <- <-; contradiction.
Qed.

(** X28. [login_ui] signs a session in only through a full exchange:
    if the session is signed in afterwards and was not before, the URL
    carried a code, the token reply had an access token, the Graph reply
    had status 200 with non-empty user information, and
    [is_user_authorized] returned True for it; the session then holds
    exactly that information and token, the query parameters are
    cleared and the script reruns. *)
Theorem login_ui_sign_in (e : env) (s s' : session)
    (query_params q' : gmap string string) (o : outcome) :
  login_ui e s query_params = (s', q', o) ->
  authenticated s <> Some true ->
  authenticated s' = Some true ->
  exists code token tok reply info,
    query_params !! "code"%string = Some code
    /\ token_result e = Some token
    /\ token !! "access_token"%string = Some tok
    /\ graph_reply e = Some reply
    /\ status_code reply = 200%Z
    /\ json_body reply = Some info
    /\ obj_truthy info = true
    /\ is_user_authorized (secrets e) info = Ok true
    /\ s' = Session (Some true) (Some info) (Some tok)
              (Some (default false (guest_mode s)))
    /\ q' = ∅ /\ o = Rerun.
Proof. apply login_ui_signs_in. Qed.

Lemma login_ui_sign_in_witness :
  exists code token tok reply info,
    ({[ "code"%string := "c"%string ]} : gmap string string) !! "code"%string = Some code
    /\ token_result sign_in_env = Some token
    /\ token !! "access_token"%string = Some tok
    /\ graph_reply sign_in_env = Some reply
    /\ status_code reply = 200%Z
    /\ json_body reply = Some info
    /\ obj_truthy info = true
    /\ is_user_authorized (secrets sign_in_env) info = Ok true
    /\ Session (Some true)
         (Some (ODict {[ "displayName"%string := OStr "Ana" ]}))
         (Some (OStr "token")) (Some false)
       = Session (Some true) (Some info) (Some tok)
           (Some (default false (guest_mode fresh_session)))
    /\ (∅ : gmap string string) = ∅ /\ Rerun = Rerun.
Proof.
  apply (login_ui_sign_in sign_in_env fresh_session _
           {[ "code"%string := "c"%string ]} ∅ Rerun).
  - reflexivity.
  - discriminate.
  - reflexivity.
Defined.

(** Both halves of a run keep the session consistent. *)
Lemma init_session_consistent (s : session) :
  session_consistent s -> session_consistent (init_session s).
Proof.
  intros Hs Hauth. simpl in Hauth.
  assert (Htrue : authenticated s = Some true).
  { destruct (authenticated s) as [[] |]; simpl in *; congruence. }
  destruct (Hs Htrue) as (Hg & info & tok & Hui & Ht & Htk).
  simpl. rewrite Hui, Htk. simpl. split.
  - destruct (guest_mode s) as [[] |]; simpl; congruence.
  - by exists info, tok.
Qed.

Lemma login_ui_consistent (e : env) (s s' : session)
    (query_params q' : gmap string string) (o : outcome) :
  session_consistent s ->
  login_ui e s query_params = (s', q', o) ->
  session_consistent s'.
Proof.
  intros Hs Hcall.
  pose proof (init_session_consistent s Hs) as Hinit.
  destruct (decide (authenticated s = Some true)) as [Hyes | Hno].
  - (* already signed in: the function falls through *)
    destruct (login_ui_falls_through e s query_params) as [Hgate _].
    rewrite Hgate in Hcall.
    + by injection Hcall as <- _ _.
    + left. simpl. by rewrite Hyes.
  - destruct (decide (authenticated s' = Some true)) as [Hyes' | Hno'].
    + destruct (login_ui_signs_in e s s' query_params q' o Hcall Hno Hyes')
        as (code & token & tok & reply & info & _ & _ & _ & _ & _ & _ & Ht & _ & -> & _ & ->).
      intros _. simpl. split.
      * (* the gate was closed, so the session was not a guest one *)
        intros [= Hguest].
        destruct (login_ui_falls_through e s query_params) as [Hgate _].
        rewrite Hgate in Hcall; [discriminate |].
        right. simpl. by rewrite Hguest.
      * by exists info, tok.
    + by intros ?.
Qed.

Lemma logout_ui_consistent (e : env) (s s' : session) (o : outcome) :
  session_consistent s ->
  logout_ui e s = (s', o) ->
  session_consistent s'.
Proof.
  intros Hs Hcall. unfold logout_ui in Hcall.
  assert (Hvac : forall t, authenticated t <> Some true -> session_consistent t).
  { intros t Ht Hx. contradiction. }
  destruct (authenticated s) as [[] |] eqn:Ha.
  - destruct (Hs Ha) as (_ & info & tok & Hui & Ht & _).
    rewrite Hui, Ht in Hcall.
    destruct info; try (by injection Hcall as <- <-).
    destruct (logout_clicked e); injection Hcall as <- <-; [| exact Hs].
    by apply Hvac.
  - destruct (guest_mode s) as [[] |]; [destruct (exit_guest_clicked e) | |];
      injection Hcall as <- <-; try exact Hs.
    by apply Hvac.
  - by injection Hcall as <- <-.
Qed.

Lemma run_consistent (e : env) (s s' : session)
    (query_params q' : gmap string string) (o : outcome) :
  session_consistent s ->
  run e s query_params = (s', q', o) ->
  session_consistent s'.
Proof.
  intros Hs. unfold run.
  destruct (login_ui e s query_params) as [[s1 q1] o1] eqn:Hlogin.
  pose proof (login_ui_consistent _ _ _ _ _ _ Hs Hlogin) as H1.
  destruct o1; try (by intros [= <- <- <-]).
  destruct (logout_ui e s1) as [s2 o2] eqn:Hlogout.
  intros [= <- <- <-]. by eapply logout_ui_consistent.
Qed.

(** X29. Over any sequence of runs from a fresh session, whatever the
    surroundings answer, a signed-in session is never also a guest
    session, and it always holds non-empty user information and an
    access token. *)
Theorem runs_session_consistent (es : list env) (query_params : gmap string string) :
  session_consistent (runs es fresh_session query_params).1.
Proof.
  assert (Hgen : forall s q, session_consistent s -> session_consistent (runs es s q).1).
  { induction es as [| e es IH]; intros s q Hs; simpl; [exact Hs |].
    destruct (run e s q) as [[s' q'] o] eqn:Hrun.
    apply IH. by eapply run_consistent. }
  apply Hgen. intros [=].
Qed.

(** X30. Pressing Logout in a signed-in session removes the
    [authenticated], [user_info] and [access_token] keys and reruns;
    on the session left behind the next call of [login_ui] does not
    fall through to the page, whatever the surroundings answer. *)
Theorem logout_clears_session (e : env) (s : session)
    (query_params : gmap string string) (m : gmap string pyobj) (tok : pyobj) :
  s = Session (Some true) (Some (ODict m)) (Some tok) (Some false) ->
  obj_truthy (ODict m) = true ->
  logout_clicked e = true ->
  run e s query_params = (Session None None None (Some false), query_params, Rerun)
  /\ forall e' q' s' q'' o,
       login_ui e' (Session None None None (Some false)) q' = (s', q'', o) ->
       o <> Continue.
Proof.
  intros -> Ht Hclick. split.
  - unfold run, login_ui, logout_ui. simpl in *. by rewrite Ht, Hclick.
  - intros e' q' s' q'' o Hcall ->.
    destruct (login_ui_falls_through e' (Session None None None (Some false)) q') as [_ Hgate].
    destruct (Hgate _ _ Hcall) as ([Ha | Hg] & -> & _); discriminate.
Qed.

Lemma logout_clears_session_witness :
  run logout_env
    (Session (Some true) (Some (ODict {[ "displayName"%string := OStr "Ana" ]}))
       (Some (OStr "token")) (Some false)) ∅
  = (Session None None None (Some false), ∅, Rerun).
Proof.
  apply (logout_clears_session logout_env _ ∅
           {[ "displayName"%string := OStr "Ana" ]} (OStr "token")).
  - reflexivity.
  - reflexivity.
  - reflexivity.
Defined.
